(** * OlxMda: the CSV importer [ImportOlxHousePrice.py]

    A shallow embedding of the row validation and conversion pipeline
    of the importer (scalar converters, column schema, row validator,
    batch loader) together with the properties stated about it.

    Python values are modelled as follows.
    - [str] is a sequence of Unicode code points ([list N]); slicing and
      [strip] work on code points, as in Python.
    - [float] is IEEE 754 binary64, through the Standard Library's
      [spec_float] with precision 53 and maximal exponent 1024.
    - [int] is [Z] (Python integers are unbounded).
    - a [dict] with string keys is a [gmap str _].
    - raising is explicit: functions that can raise return a [result]. *)

From Stdlib Require Import ZArith NArith List Bool String Ascii Lia.
From Stdlib Require Import Floats.SpecFloat.
From stdpp Require Import base option list gmap.

Local Open Scope Z_scope.

(** ** Strings *)

Module PyStr.

Definition str : Type := list N.

(** A literal written with ASCII characters only. *)
Definition lit (s : string) : str :=
  List.map N_of_ascii (list_ascii_of_string s).

(** [Py_UNICODE_ISSPACE]: the code points [str.strip()] removes and
    [str.isspace()] accepts. *)
Definition is_space (c : N) : bool :=
  ((9 <=? c) && (c <=? 13) || (28 <=? c) && (c <=? 32) ||
   (c =? 133) || (c =? 160) || (c =? 5760) ||
   (8192 <=? c) && (c <=? 8202) ||
   (c =? 8232) || (c =? 8233) || (c =? 8239) || (c =? 8287) ||
   (c =? 12288))%N.

(** [s.lstrip()] *)
Fixpoint lstrip (s : str) : str :=
  match s with
  | c :: r => if is_space c then lstrip r else s
  | [] => []
  end.

(** [s.rstrip()] *)
Definition rstrip (s : str) : str := rev (lstrip (rev s)).

(** [s.strip()] *)
Definition strip (s : str) : str := rstrip (lstrip s).

(** [s.replace(",", ".")] *)
Definition replace_comma (s : str) : str :=
  List.map (fun c => if (c =? 44)%N then 46%N else c) s.

(** [sep.join(l)] *)
Fixpoint join (sep : str) (l : list str) : str :=
  match l with
  | [] => []
  | [x] => x
  | x :: r => x ++ sep ++ join sep r
  end.

End PyStr.
Export PyStr.

(** ** Exceptions and results *)

Inductive exn_class :=
  | ValueError | OverflowError | TypeError | AttributeError | KeyError
  | InvalidOperation | DatabaseError.

(** An exception object: its class and [str(e)]. *)
Record exn := Exn { exn_cls : exn_class; exn_msg : str }.

Inductive result (A : Type) :=
  | Ok (a : A)
  | Raise (e : exn).
Arguments Ok {A} a.
Arguments Raise {A} e.

#[export] Instance result_ret : MRet result := fun _ a => Ok a.
#[export] Instance result_bind : MBind result := fun _ _ k r =>
  match r with
  | Ok a => k a
  | Raise e => Raise e
  end.

(** ** The built-in [float(str)] and [int(float)] *)

Module PyFloat.

Definition float : Type := spec_float.

Definition prec : Z := 53.
Definition emax : Z := 1024.

(** First code point of every block of ten decimal digits (general
    category Nd) outside ASCII, Unicode 14.0.0. *)
Definition decimal_zeros : list N :=
  [1632; 1776; 1984; 2406; 2534; 2662; 2790; 2918; 3046; 3174; 3302; 3430;
   3558; 3664; 3792; 3872; 4160; 4240; 6112; 6160; 6470; 6608; 6784; 6800;
   6992; 7088; 7232; 7248; 42528; 43216; 43264; 43472; 43504; 43600; 44016;
   65296; 66720; 68912; 69734; 69872; 69942; 70096; 70384; 70736; 70864;
   71248; 71360; 71472; 71904; 72016; 72784; 73040; 73120; 92768; 92864;
   93008; 120782; 120792; 120802; 120812; 120822; 123200; 123632; 125264;
   130032]%N.

(** [Py_UNICODE_TODECIMAL] on a code point outside ASCII. *)
Definition to_decimal (c : N) : option N :=
  match List.find (fun z => (z <=? c) && (c <? z + 10))%N decimal_zeros with
  | Some z => Some (c - z)%N
  | None => None
  end.

(** [_PyUnicode_TransformDecimalAndSpaceToASCII], one code point: ASCII
    is kept, other white space becomes a space, other decimal digits
    become ASCII digits, and anything else becomes ['?'] (which no
    float literal contains). *)
Definition to_ascii (c : N) : N :=
  if (c <? 128)%N then c
  else if is_space c then 32%N
  else match to_decimal c with
       | Some d => (48 + d)%N
       | None => 63%N
       end.

(** [Py_ISSPACE] *)
Definition is_ascii_space (c : N) : bool :=
  ((9 <=? c) && (c <=? 13) || (c =? 32))%N.

Fixpoint lstrip_ascii (s : str) : str :=
  match s with
  | c :: r => if is_ascii_space c then lstrip_ascii r else s
  | [] => []
  end.

Definition strip_ascii (s : str) : str :=
  rev (lstrip_ascii (rev (lstrip_ascii s))).

Definition is_digit (c : N) : bool := ((48 <=? c) && (c <=? 57))%N.

(** [_Py_string_to_number_with_underscores]: an underscore is dropped
    when it stands between two digits and is an error anywhere else.
    [prev] is the previous character (0 at the start). *)
Fixpoint remove_underscores (prev : N) (s : str) : option str :=
  match s with
  | [] => if (prev =? 95)%N then None else Some []
  | c :: r =>
      if (c =? 95)%N then
        if is_digit prev then remove_underscores c r else None
      else if (prev =? 95)%N && negb (is_digit c) then None
      else option_map (cons c) (remove_underscores c r)
  end.

(** ASCII lower case, [Py_TOLOWER]. *)
Definition to_lower (c : N) : N :=
  if ((65 <=? c) && (c <=? 90))%N then (c + 32)%N else c.

Definition parse_sign (s : str) : bool * str :=
  match s with
  | 45%N :: r => (true, r)
  | 43%N :: r => (false, r)
  | _ => (false, s)
  end.

(** The longest prefix of ASCII digits, as digit values, and the rest. *)
Fixpoint span_digits (s : str) : list N * str :=
  match s with
  | c :: r =>
      if is_digit c then
        let '(ds, r') := span_digits r in ((c - 48)%N :: ds, r')
      else ([], s)
  | [] => ([], [])
  end.

Definition digits_value (ds : list N) : N :=
  fold_left (fun a d => (10 * a + d)%N) ds 0%N.

(** The exponent part, which has to reach the end of the text: nothing,
    or [e]/[E], an optional sign and at least one digit. *)
Definition parse_exponent (s : str) : option Z :=
  match s with
  | [] => Some 0
  | c :: r =>
      if ((c =? 101) || (c =? 69))%N then
        let '(neg, r1) := parse_sign r in
        match span_digits r1 with
        | ((_ :: _) as ds, []) =>
            let v := Z.of_N (digits_value ds) in
            Some (if neg then - v else v)
        | _ => None
        end
      else None
  end.

(** The decimal literal [digits] times ten to the [e10], rounded to the
    nearest binary64 (ties to even); too large a value gives an infinity
    and too small a one a zero, as [PyOS_string_to_double] does when it
    is called without an overflow exception. *)
Definition round_decimal (neg : bool) (digits : N) (e10 : Z) : float :=
  match digits with
  | N0 => S754_zero neg
  | Npos m =>
      if 0 <=? e10 then
        binary_normalize prec emax
          (if neg then Zneg m * 10 ^ e10 else Zpos m * 10 ^ e10) 0 neg
      else
        SFdiv prec emax (S754_finite neg m 0)
          (S754_finite false (Z.to_pos (10 ^ (- e10))) 0)
  end.

(** An unsigned decimal literal: digits, an optional point and more
    digits, at least one digit in all, then the exponent part. *)
Definition parse_decimal (neg : bool) (s : str) : option float :=
  let '(ip, r1) := span_digits s in
  let '(fp, r2) :=
    match r1 with
    | 46%N :: r => span_digits r
    | _ => ([], r1)
    end in
  match ip ++ fp with
  | [] => None
  | ds =>
      match parse_exponent r2 with
      | Some e => Some (round_decimal neg (digits_value ds)
                          (e - Z.of_nat (length fp)))
      | None => None
      end
  end.

(** [_Py_parse_inf_or_nan] after the sign. *)
Definition parse_inf_or_nan (neg : bool) (s : str) : option float :=
  let l := List.map to_lower s in
  if bool_decide (l = lit "inf") || bool_decide (l = lit "infinity")
  then Some (S754_infinity neg)
  else if bool_decide (l = lit "nan") then Some S754_nan
  else None.

(** [float(s)] for a string [s].  The message of the [ValueError] also
    quotes the text in Python; no caller in the importer looks at it. *)
Definition py_float (s : str) : result float :=
  let failed :=
    Raise (Exn ValueError (lit "could not convert string to float")) in
  match remove_underscores 0 (strip_ascii (List.map to_ascii s)) with
  | None => failed
  | Some t =>
      let '(neg, u) := parse_sign t in
      match parse_decimal neg u with
      | Some f => Ok f
      | None =>
          match parse_inf_or_nan neg u with
          | Some f => Ok f
          | None => failed
          end
      end
  end.

(** [int(f)] for a float [f]: the integer part, towards zero. *)
Definition py_int (f : float) : result Z :=
  match f with
  | S754_zero _ => Ok 0
  | S754_finite s m e =>
      let a := if 0 <=? e then Zpos m * 2 ^ e else Zpos m / 2 ^ (- e) in
      Ok (if s then - a else a)
  | S754_infinity _ =>
      Raise (Exn OverflowError (lit "cannot convert float infinity to integer"))
  | S754_nan =>
      Raise (Exn ValueError (lit "cannot convert float NaN to integer"))
  end.

End PyFloat.
Export PyFloat.


(** ** Values *)

(** The Python values the importer handles: [None], a string, a float,
    an integer. *)
Inductive pyval :=
  | VNone
  | VStr (s : str)
  | VFloat (f : float)
  | VInt (n : Z).

#[export] Instance float_eq_dec : EqDecision float.
Proof. unfold float. solve_decision. Defined.

#[export] Instance pyval_eq_dec : EqDecision pyval.
Proof. solve_decision. Defined.

(** Truth value of a Python object, as [not value] and [if x] test it. *)
Definition truthy (v : pyval) : bool :=
  match v with
  | VNone => false
  | VStr s => negb (bool_decide (s = []))
  | VFloat (S754_zero _) => false
  | VFloat _ => true
  | VInt n => negb (n =? 0)
  end.

(** [try: body  except (ValueError, InvalidOperation): return None] *)
Definition except_value_error (body : result pyval) : result pyval :=
  match body with
  | Ok v => Ok v
  | Raise e =>
      match exn_cls e with
      | ValueError | InvalidOperation => Ok VNone
      | _ => Raise e
      end
  end.

(** ** Scalar converters *)

(** [isinstance(value, str)] *)
Definition isinstance_str (v : pyval) : bool :=
  match v with
  | VStr _ => true
  | _ => false
  end.

(** The code points of a value known to be a string. *)
Definition str_of (v : pyval) : str :=
  match v with
  | VStr s => s
  | _ => []
  end.

Definition _parse_float (value : pyval) : result pyval :=
  if negb (truthy value) || negb (isinstance_str value) then Ok VNone
  else
    let value := strip (str_of value) in
    if negb (truthy (VStr value)) then Ok VNone
    else
      except_value_error
        (let normalized := replace_comma value in
         f ← py_float normalized; Ok (VFloat f)).

Definition _parse_int (value : pyval) : result pyval :=
  if negb (truthy value) || negb (isinstance_str value) then Ok VNone
  else
    let value := strip (str_of value) in
    if negb (truthy (VStr value)) then Ok VNone
    else
      except_value_error
        (f ← py_float (replace_comma value);
         n ← py_int f; Ok (VInt n)).

Definition _parse_tinyint (value : pyval) : result pyval :=
  if negb (truthy value) || negb (isinstance_str value) then Ok VNone
  else
    let value := strip (str_of value) in
    if negb (truthy (VStr value)) then Ok VNone
    else
      except_value_error
        (f ← py_float (replace_comma value);
         int_val ← py_int f;
         if (0 <=? int_val) && (int_val <=? 255) then Ok (VInt int_val)
         else Ok VNone).

(** [lambda x: x[:50] if x else None]; only [None] and strings can be
    sliced or are falsy, a non-zero number raises [TypeError]. *)
Definition truncate50 (x : pyval) : result pyval :=
  if truthy x then
    match x with
    | VStr s => Ok (VStr (take 50 s))
    | VFloat _ =>
        Raise (Exn TypeError (lit "'float' object is not subscriptable"))
    | VInt _ =>
        Raise (Exn TypeError (lit "'int' object is not subscriptable"))
    | VNone => Ok VNone
    end
  else Ok VNone.

(** ** Schema *)

Record column_def := ColumnDef {
  sql_type : str;
  nullable : bool;
  converter : pyval -> result pyval
}.

(** The dictionary [COLUMN_DEFS], in its insertion order. *)
Definition COLUMN_DEFS : list (str * column_def) :=
  [ (lit "price", ColumnDef (lit "float") false _parse_float);
    (lit "price_per_meter", ColumnDef (lit "float") false _parse_float);
    (lit "offer_type", ColumnDef (lit "nvarchar(50)") false truncate50);
    (lit "floor", ColumnDef (lit "tinyint") true _parse_tinyint);
    (lit "area", ColumnDef (lit "float") true _parse_float);
    (lit "rooms", ColumnDef (lit "tinyint") false _parse_tinyint);
    (lit "offer_type_of_building",
       ColumnDef (lit "nvarchar(50)") true truncate50);
    (lit "market", ColumnDef (lit "nvarchar(50)") false truncate50);
    (lit "city_name", ColumnDef (lit "nvarchar(50)") false truncate50);
    (lit "voivodeship", ColumnDef (lit "nvarchar(50)") false truncate50);
    (lit "month", ColumnDef (lit "nvarchar(50)") false truncate50);
    (lit "year", ColumnDef (lit "smallint") false _parse_int);
    (lit "population", ColumnDef (lit "int") false _parse_int);
    (lit "longitude", ColumnDef (lit "float") false _parse_float);
    (lit "latitude", ColumnDef (lit "float") false _parse_float) ].

Definition REQUIRED_FIELDS : list str :=
  [ lit "price"; lit "price_per_meter"; lit "rooms"; lit "year";
    lit "population"; lit "longitude"; lit "latitude"; lit "offer_type";
    lit "market"; lit "city_name"; lit "voivodeship" ].

(** ** Row validator *)

(** A record as [csv.DictReader] yields it: a column of the header maps
    to the text of its cell, or to [None] when the line is shorter than
    the header. *)
(** The locals of [validate_and_convert_row]. *)
Record row_state := RowState {
  converted : gmap str pyval;
  errors : list str;
  raw_values : gmap str str
}.

(** [row.get(col_name, "").strip() if col_name in row else ""] *)
Definition get_raw_value (row : gmap str pyval) (col_name : str) : result str :=
  match row !! col_name with
  | Some (VStr s) => Ok (strip s)
  | Some VNone =>
      Raise (Exn AttributeError
               (lit "'NoneType' object has no attribute 'strip'"))
  | Some (VFloat _) =>
      Raise (Exn AttributeError
               (lit "'float' object has no attribute 'strip'"))
  | Some (VInt _) =>
      Raise (Exn AttributeError
               (lit "'int' object has no attribute 'strip'"))
  | None => Ok []
  end.

Definition missing_message (col_name raw_value : str) : str :=
  lit "  " ++ col_name ++ lit ": Missing or invalid (raw value: '"
    ++ raw_value ++ lit "')".

Definition fault_message (col_name : str) (e : exn) : str :=
  lit "  " ++ col_name ++ lit ": " ++ exn_msg e.

(** One iteration of the loop over [COLUMN_DEFS.items()]. *)
Definition validate_column (row : gmap str pyval) (st : row_state)
    (col : str * column_def) : result row_state :=
  let '(col_name, col_def) := col in
  raw_value ← get_raw_value row col_name;
  let raw_values := <[col_name := raw_value]> (raw_values st) in
  let '(converted_value, errors) :=
    match converter col_def (VStr raw_value) with
    | Ok v => (v, errors st)
    | Raise e => (VNone, errors st ++ [fault_message col_name e])
    end in
  let errors :=
    if bool_decide (col_name ∈ REQUIRED_FIELDS) then
      match converted_value with
      | VNone => errors ++ [missing_message col_name raw_value]
      | _ => errors
      end
    else errors in
  Ok (RowState (<[col_name := converted_value]> (converted st))
        errors raw_values).

Fixpoint validate_columns (row : gmap str pyval) (st : row_state)
    (cols : list (str * column_def)) : result row_state :=
  match cols with
  | [] => Ok st
  | col :: rest =>
      st' ← validate_column row st col; validate_columns row st' rest
  end.

(** What [validate_and_convert_row] returns:
    [(converted_row, is_valid, error_msg, raw_values)]. *)
Record validation := Validation {
  v_converted : gmap str pyval;
  is_valid : bool;
  error_msg : option str;
  v_raw_values : gmap str str
}.

Definition validate_and_convert_row (row_num : Z) (row : gmap str pyval)
    : result validation :=
  st ← validate_columns row (RowState ∅ [] ∅) COLUMN_DEFS;
  let is_valid := bool_decide (length (errors st) = 0%nat) in
  let error_msg :=
    match errors st with
    | [] => None
    | _ => Some (join (lit (String "010" EmptyString)) (errors st))
    end in
  Ok (Validation (converted st) is_valid error_msg (raw_values st)).


(** ** Batch loader *)

(** The database cursor, an external collaborator: [execute] runs the
    insert statement with a tuple of values and [commit] makes the
    insertions durable.  Either may raise; the cursor lives on. *)
Class Cursor (C : Type) := {
  execute : C -> list pyval -> C * option exn;
  commit : C -> C * option exn
}.

(** An entry of [rejected_samples]. *)
Record sample := Sample {
  sample_row : Z;
  sample_errors : option str;
  sample_raw_values : gmap str str
}.

(** The locals of [insert_rows] that survive an iteration. *)
Record loader_state (C : Type) := LoaderState {
  inserted : Z;
  rejected : Z;
  rejected_samples : list sample;
  cursor : C
}.
Arguments LoaderState {C} _ _ _ _.
Arguments inserted {C} _.
Arguments rejected {C} _.
Arguments rejected_samples {C} _.
Arguments cursor {C} _.

(** [converted[key]] *)
Definition subscript (converted : gmap str pyval) (key : str)
    : result pyval :=
  match converted !! key with
  | Some v => Ok v
  | None => Raise (Exn KeyError key)
  end.

(** The columns of the insert statement, in its order. *)
Definition INSERT_COLUMNS : list str :=
  [ lit "price"; lit "price_per_meter"; lit "offer_type"; lit "floor";
    lit "area"; lit "rooms"; lit "offer_type_of_building"; lit "market";
    lit "city_name"; lit "voivodeship"; lit "month"; lit "year";
    lit "population"; lit "longitude"; lit "latitude" ].

(** The tuple [values]. *)
Fixpoint insert_values (converted : gmap str pyval) (keys : list str)
    : result (list pyval) :=
  match keys with
  | [] => Ok []
  | key :: rest =>
      v ← subscript converted key;
      vs ← insert_values converted rest;
      Ok (v :: vs)
  end.

(** What the branch [if not is_valid] does to the state. *)
Definition reject_invalid {C} (st : loader_state C) (row_num : Z)
    (v : validation) : loader_state C :=
  LoaderState (inserted st) (rejected st + 1)
    (if (Z.of_nat (length (rejected_samples st)) <? 20) then
       rejected_samples st ++
         [Sample row_num (error_msg v) (v_raw_values v)]
     else rejected_samples st)
    (cursor st).

(** The body of the loop [for row_num, row in rows]. *)
Definition process_row `{Cursor C} (st : loader_state C)
    (r : Z * gmap str pyval) : result (loader_state C) :=
  let '(row_num, row) := r in
  v ← validate_and_convert_row row_num row;
  if negb (is_valid v) then Ok (reject_invalid st row_num v)
  else
    values ← insert_values (v_converted v) INSERT_COLUMNS;
    match execute (cursor st) values with
    | (c, None) =>
        Ok (LoaderState (inserted st + 1) (rejected st)
              (rejected_samples st) c)
    | (c, Some e) =>
        Ok (LoaderState (inserted st) (rejected st + 1)
              (rejected_samples st) c)
    end.

Fixpoint process_rows `{Cursor C} (st : loader_state C)
    (rows : list (Z * gmap str pyval)) : result (loader_state C) :=
  match rows with
  | [] => Ok st
  | r :: rest => st' ← process_row st r; process_rows st' rest
  end.

(** [insert_rows(cursor, rows)]: the loop, then the commit.  The result
    carries the counters and samples the summary is printed from. *)
Definition insert_rows `{Cursor C} (cur : C)
    (rows : list (Z * gmap str pyval)) : result (loader_state C) :=
  st ← process_rows (LoaderState 0 0 [] cur) rows;
  match commit (cursor st) with
  | (c, None) =>
      Ok (LoaderState (inserted st) (rejected st) (rejected_samples st) c)
  | (_, Some e) => Raise e
  end.

(** A cursor that keeps the inserted tuples and rejects a tuple, as a
    uniqueness constraint would, when it is already stored. *)
#[export] Instance table_cursor : Cursor (list (list pyval)) := {
  execute tbl values :=
    if bool_decide (values ∈ tbl)
    then (tbl, Some (Exn DatabaseError (lit "duplicate row")))
    else (tbl ++ [values], None);
  commit tbl := (tbl, None)
}.

(** ** Definitions used to state the properties, and sample records *)

(** The exact value of a finite float, as a fraction with a positive
    denominator. *)
Definition exact_ratio (f : float) : option (Z * Z) :=
  match f with
  | S754_zero _ => Some (0, 1)
  | S754_finite s m e =>
      let a := if s then Zneg m else Zpos m in
      Some (if 0 <=? e then (a * 2 ^ e, 1) else (a, 2 ^ (- e)))
  | _ => None
  end.

(** The binary64 number nearest to 3.14. *)
Definition float_3_14 : float := S754_finite false 7070651414971679 (-51).

(** The raw value the validator works with: the trimmed text of the
    cell, or the empty text when the record has no such column. *)
Definition cell_text (row : gmap str pyval) (col_name : str) : str :=
  match row !! col_name with
  | Some (VStr s) => strip s
  | _ => []
  end.

(** The value stored for a column: what its converter returns, or
    [None] when the converter raised. *)
Definition converted_value (row : gmap str pyval)
    (col : str * column_def) : pyval :=
  match converter col.2 (VStr (cell_text row col.1)) with
  | Ok v => v
  | Raise _ => VNone
  end.

(** The messages one column adds to [errors]. *)
Definition column_errors (row : gmap str pyval)
    (col : str * column_def) : list str :=
  match converter col.2 (VStr (cell_text row col.1)) with
  | Ok v =>
      if bool_decide (col.1 ∈ REQUIRED_FIELDS) then
        match v with
        | VNone => [missing_message col.1 (cell_text row col.1)]
        | _ => []
        end
      else []
  | Raise e =>
      fault_message col.1 e ::
      (if bool_decide (col.1 ∈ REQUIRED_FIELDS)
       then [missing_message col.1 (cell_text row col.1)] else [])
  end.

Definition newline : str := lit (String "010" EmptyString).

(** Every cell of the record is text: no line was shorter than the
    header. *)
Definition text_row (row : gmap str pyval) : Prop :=
  map_Forall (fun _ v => isinstance_str v = true) row.

(** A record with every required column filled in. *)
Definition good_cells : list (str * pyval) :=
  [ (lit "price", VStr (lit " 350000,50 "));
    (lit "price_per_meter", VStr (lit "7000.01"));
    (lit "offer_type", VStr (lit "Private"));
    (lit "rooms", VStr (lit "3"));
    (lit "market", VStr (lit "primary"));
    (lit "city_name", VStr (lit "Warszawa"));
    (lit "voivodeship", VStr (lit "mazowieckie"));
    (lit "year", VStr (lit "2022"));
    (lit "population", VStr (lit "1790658"));
    (lit "longitude", VStr (lit "21,0122"));
    (lit "latitude", VStr (lit "52.2297")) ].

Definition good_row : gmap str pyval := list_to_map good_cells.

(** The same record with an infinite floor, floor being optional. *)
Definition infinite_floor_row : gmap str pyval :=
  <[lit "floor" := VStr (lit "inf")]> good_row.

(** The same record with a floor that is not a number. *)
Definition bad_floor_row : gmap str pyval :=
  <[lit "floor" := VStr (lit "ground")]> good_row.

(** The same record with an empty price. *)
Definition empty_price_row : gmap str pyval :=
  <[lit "price" := VStr (lit "  ")]> good_row.

(** The sample the loader would record for a row, if validation rejects
    the row. *)
Definition rejected_sample (r : Z * gmap str pyval) : list sample :=
  match validate_and_convert_row r.1 r.2 with
  | Ok v =>
      if is_valid v then []
      else [Sample r.1 (error_msg v) (v_raw_values v)]
  | Raise _ => []
  end.

(** The samples of all rows that validation rejects, in input order. *)
Definition validation_rejects (rows : list (Z * gmap str pyval))
    : list sample :=
  flat_map rejected_sample rows.

(** The same record with 256 rooms, rooms being required. *)
Definition too_many_rooms_row : gmap str pyval :=
  <[lit "rooms" := VStr (lit "256")]> good_row.

(** A file of three data lines: a good one, one without price, one with
    256 rooms. *)
Definition three_rows : list (Z * gmap str pyval) :=
  [(2, good_row); (3, empty_price_row); (4, too_many_rooms_row)].

(** Twenty-five data lines that validation rejects. *)
Definition many_bad_rows : list (Z * gmap str pyval) :=
  (fun n => (Z.of_nat n, empty_price_row)) <$> seq 2 25.

(** The same record as a line shorter than the header leaves it: the
    last column holds [None]. *)
Definition short_row : gmap str pyval :=
  <[lit "latitude" := VNone]> good_row.

(** ** Reading the file *)

(** [enumerate(iterable, start)] *)
Fixpoint enumerate {A} (start : Z) (l : list A) : list (Z * A) :=
  match l with
  | [] => []
  | x :: r => (start, x) :: enumerate (start + 1) r
  end.

(** What opening and reading a file gives: no such file, a failure
    while reading or decoding, or the contents. *)
Inductive file (A : Type) :=
  | Absent
  | Unreadable (e : exn)
  | Contents (a : A).
Arguments Absent {A}.
Arguments Unreadable {A} e.
Arguments Contents {A} a.

(** How a function that checks for its file first can end. *)
Inductive file_result (A : Type) :=
  | Finished (a : A)
  | FileNotFound (msg : str)
  | Failed (e : exn).
Arguments Finished {A} a.
Arguments FileNotFound {A} msg.
Arguments Failed {A} e.

(** [read_csv(filepath)].  The file holds the records [csv.DictReader]
    yields for it; the rows are numbered from 2, the header being
    line 1. *)
Definition read_csv (filepath : str) (f : file (list (gmap str pyval)))
    : file_result (list (Z * gmap str pyval)) :=
  match f with
  | Absent => FileNotFound (lit "CSV file not found: " ++ filepath)
  | Unreadable e => Failed e
  | Contents reader => Finished (enumerate 2 reader)
  end.

(** ** The report of rejected rows *)

(** What is printed after the name of a required field. *)
Definition display_raw (raw_val : str) : str :=
  if negb (truthy (VStr raw_val)) then lit "[EMPTY]"
  else if (100 <? Z.of_nat (length raw_val)) then
    take 100 raw_val ++ lit "..."
  else raw_val.

(** The lines printed for the raw values of one sample: one line for
    every required field. *)
Definition raw_value_lines (s : sample) : list str :=
  (fun field =>
     let raw_val := default [] (sample_raw_values s !! field) in
     lit "    " ++ field ++ lit ": " ++ display_raw raw_val)
  <$> REQUIRED_FIELDS.

(** ** Running a script *)

(** A cursor that also runs a batch of SQL text. *)
Class ScriptCursor (C : Type) `{Cursor C} := {
  execute_batch : C -> str -> C * option exn
}.

(** [$] under [re.MULTILINE]: the end of the text or just before a line
    feed. *)
Definition at_line_end (s : str) : bool :=
  match s with
  | [] => true
  | c :: _ => (c =? 10)%N
  end.

(** [\s*$]: white space, as much as possible, given back one character
    at a time until a line ends there.  The number of characters
    taken. *)
Fixpoint match_spaces_line_end (s : str) : option nat :=
  match s with
  | c :: r =>
      if is_space c then
        match match_spaces_line_end r with
        | Some k => Some (S k)
        | None => if at_line_end s then Some 0%nat else None
        end
      else if at_line_end s then Some 0%nat else None
  | [] => Some 0%nat
  end.

(** The pattern [\ngo\s*$] with [re.IGNORECASE], tried at the start of
    [s]: the length of the match. *)
Definition match_go (s : str) : option nat :=
  match s with
  | nl :: g :: o :: r =>
      if (nl =? 10)%N && ((g =? 103) || (g =? 71))%N
         && ((o =? 111) || (o =? 79))%N
      then option_map (fun k => S (S (S k))) (match_spaces_line_end r)
      else None
  | _ => None
  end.

(** [re.split] on that pattern, left to right: [skip] characters of a
    match are still to be passed over and [piece] is the text since the
    last match. *)
Fixpoint re_split_go (skip : nat) (piece : str) (s : str) : list str :=
  match s with
  | [] => [piece]
  | c :: r =>
      match skip with
      | S k => re_split_go k piece r
      | O =>
          match match_go s with
          | Some (S k) => piece :: re_split_go k [] r
          | _ => re_split_go 0 (piece ++ [c]) r
          end
      end
  end.

(** The loop over the batches: each is trimmed and run unless it is
    empty; the first failure ends the loop. *)
Fixpoint run_batches `{ScriptCursor C} (c : C) (batches : list str)
    : C * option exn :=
  match batches with
  | [] => (c, None)
  | batch :: rest =>
      let batch := strip batch in
      if truthy (VStr batch) then
        match execute_batch c batch with
        | (c', None) => run_batches c' rest
        | (c', Some e) => (c', Some e)
        end
      else run_batches c rest
  end.

(** [execute_sql_file(cursor, filepath, description)]: the cursor it
    leaves and how it ended.  A failure inside the [try] is printed and
    raised again. *)
Definition execute_sql_file `{ScriptCursor C} (c : C) (filepath : str)
    (f : file str) : C * file_result unit :=
  match f with
  | Absent => (c, FileNotFound (lit "SQL file not found: " ++ filepath))
  | Unreadable e => (c, Failed e)
  | Contents sql_content =>
      let batches := re_split_go 0 [] sql_content in
      match run_batches c batches with
      | (c', Some e) => (c', Failed e)
      | (c', None) =>
          match commit c' with
          | (c'', Some e) => (c'', Failed e)
          | (c'', None) => (c'', Finished tt)
          end
      end
  end.

(** ** Definitions used to state the further properties *)

(** Whether a converted value is what a column of the given SQL type
    takes; [None] goes in as NULL.  The importer checks a range for
    [tinyint] only. *)
Definition fits_sql_type (sql_type : str) (v : pyval) : Prop :=
  match v with
  | VNone => True
  | VFloat _ => sql_type = lit "float"
  | VInt n =>
      sql_type = lit "int" \/ sql_type = lit "smallint" \/
      (sql_type = lit "tinyint" /\ 0 <= n <= 255)
  | VStr s => sql_type = lit "nvarchar(50)" /\ (0 < length s <= 50)%nat
  end.

(** The tuple the loader hands to the cursor for a row, if validation
    accepts the row. *)
Definition accepted_tuple (r : Z * gmap str pyval) : list (list pyval) :=
  match validate_and_convert_row r.1 r.2 with
  | Ok v =>
      if is_valid v then
        match insert_values (v_converted v) INSERT_COLUMNS with
        | Ok values => [values]
        | Raise _ => []
        end
      else []
  | Raise _ => []
  end.

(** The tuples of all rows that validation accepts, in input order. *)
Definition accepted_tuples (rows : list (Z * gmap str pyval))
    : list (list pyval) :=
  flat_map accepted_tuple rows.

(** A database session for examples: it stores every tuple, runs every
    batch except the text [RAISERROR], and counts the commits. *)
Record session := Session {
  stored : list (list pyval);
  ran : list str;
  commits : nat
}.

#[export] Instance session_cursor : Cursor session := {
  execute s values :=
    (Session (stored s ++ [values]) (ran s) (commits s), None);
  commit s := (Session (stored s) (ran s) (S (commits s)), None)
}.

#[export] Instance session_script : ScriptCursor session := {
  execute_batch s batch :=
    if bool_decide (batch = lit "RAISERROR")
    then (s, Some (Exn DatabaseError (lit "error raised")))
    else (Session (stored s) (ran s ++ [batch]) (commits s), None)
}.

(** What the validator returns for a record of the examples (an empty
    validation if it raised). *)
Definition validation_of (row_num : Z) (row : gmap str pyval) : validation :=
  match validate_and_convert_row row_num row with
  | Ok v => v
  | Raise _ => Validation ∅ false None ∅
  end.

(** The state a run over the rows of an example ends in (the initial
    state if it raised). *)
Definition loaded `{Cursor C} (cur : C) (rows : list (Z * gmap str pyval))
    : loader_state C :=
  match insert_rows cur rows with
  | Ok st => st
  | Raise _ => LoaderState 0 0 [] cur
  end.

(** The pieces of a split text and the separators between them, put
    together again. *)
Fixpoint rejoin (pieces seps : list str) : str :=
  match pieces, seps with
  | p :: ps, sep :: seps' => p ++ sep ++ rejoin ps seps'
  | p :: _, [] => p
  | [], _ => []
  end.

(** A batch separator: a line feed, [go] in either case, white space. *)
Definition is_go_separator (sep : str) : Prop :=
  exists g o ws,
    sep = 10%N :: g :: o :: ws /\
    (g = 103%N \/ g = 71%N) /\ (o = 111%N \/ o = 79%N) /\
    forallb is_space ws = true.

(** The batches of a script that reach the cursor: the pieces between
    the separators, trimmed, the empty ones left out. *)
Definition script_batches (sql_content : str) : list str :=
  List.filter (fun batch => truthy (VStr batch))
    (strip <$> re_split_go 0 [] sql_content).

(** Running batches as they are, up to the first failure. *)
Fixpoint execute_all `{ScriptCursor C} (c : C) (batches : list str)
    : C * option exn :=
  match batches with
  | [] => (c, None)
  | batch :: rest =>
      match execute_batch c batch with
      | (c', None) => execute_all c' rest
      | (c', Some e) => (c', Some e)
      end
  end.

(** A script of three batches, the second of which the session of the
    examples refuses. *)
Definition sample_script : str :=
  lit "SELECT 1" ++ newline ++ lit "GO" ++ newline ++
  lit "RAISERROR" ++ newline ++ lit "go  " ++ newline ++ newline ++
  lit "SELECT 2" ++ newline.

(** The text of a number written with the given decimal digits. *)
Definition digit_text (ds : list N) : str := List.map (N.add 48) ds.

(** * Properties *)

(** ** Strings *)

Section StripFacts.

Lemma lstrip_all_space (s : str) :
  forallb is_space s = true -> lstrip s = [].
Proof.
  induction s as [|c r IH]; simpl; [reflexivity|].
  intros [Hc Hr]%andb_true_iff. rewrite Hc. auto.
Qed.

Lemma strip_all_space (s : str) :
  forallb is_space s = true -> strip s = [].
Proof.
  intros H. unfold strip, rstrip. now rewrite (lstrip_all_space s H).
Qed.

Lemma lstrip_head (s : str) (c : N) :
  head (lstrip s) = Some c -> is_space c = false.
Proof.
  induction s as [|d r IH]; simpl; [discriminate|].
  destruct (is_space d) eqn:Hd; [exact IH|].
  simpl. intros [= <-]. exact Hd.
Qed.

Lemma lstrip_snoc (s : str) (c : N) :
  is_space c = false -> lstrip (s ++ [c]) = lstrip s ++ [c].
Proof.
  intros Hc. induction s as [|d r IH]; simpl.
  - now rewrite Hc.
  - destruct (is_space d); [exact IH | reflexivity].
Qed.

Lemma lstrip_idem (s : str) : lstrip (lstrip s) = lstrip s.
Proof.
  induction s as [|d r IH]; simpl; [reflexivity|].
  destruct (is_space d) eqn:Hd; [exact IH|]. simpl. now rewrite Hd.
Qed.

(** A stripped string neither starts nor ends with white space. *)
Lemma strip_head (s : str) (c : N) :
  head (strip s) = Some c -> is_space c = false.
Proof.
  unfold strip, rstrip.
  destruct (lstrip s) as [|d t] eqn:Hl; [discriminate|].
  assert (Hd : is_space d = false).
  { apply (lstrip_head s). now rewrite Hl. }
  simpl rev. rewrite (lstrip_snoc _ _ Hd), rev_app_distr. simpl.
  intros [= <-]. exact Hd.
Qed.

Lemma strip_last (s : str) (c : N) :
  last (strip s) = Some c -> is_space c = false.
Proof.
  unfold strip, rstrip.
  destruct (lstrip (rev (lstrip s))) as [|d t] eqn:Hl; [discriminate|].
  simpl rev. rewrite last_snoc. intros [= <-].
  apply (lstrip_head (rev (lstrip s))). now rewrite Hl.
Qed.

Lemma rstrip_lstrip_comm_nonspace (d : N) (t : str) :
  is_space d = false -> rstrip (d :: t) = d :: rstrip t.
Proof.
  intros Hd. unfold rstrip. simpl rev.
  now rewrite (lstrip_snoc _ _ Hd), rev_app_distr.
Qed.

Lemma strip_idem (s : str) : strip (strip s) = strip s.
Proof.
  unfold strip at 2 3.
  destruct (lstrip s) as [|d t] eqn:Hl; [reflexivity|].
  assert (Hd : is_space d = false).
  { apply (lstrip_head s). now rewrite Hl. }
  rewrite (rstrip_lstrip_comm_nonspace d t Hd).
  unfold strip. simpl lstrip. rewrite Hd.
  rewrite (rstrip_lstrip_comm_nonspace d _ Hd). f_equal.
  unfold rstrip. rewrite rev_involutive, lstrip_idem. reflexivity.
Qed.





End StripFacts.

(** ** Scalar converters *)

Section ConverterFacts.

Lemma py_float_raises_value_error (s : str) (e : exn) :
  py_float s = Raise e -> exn_cls e = ValueError.
Proof.
  unfold py_float.
  destruct (remove_underscores _ _) as [t|]; [|now intros [= <-]].
  destruct (parse_sign t) as [neg u].
  destruct (parse_decimal neg u); [discriminate|].
  destruct (parse_inf_or_nan neg u); [discriminate|].
  now intros [= <-].
Qed.

(** [int(f)] is the quotient that rounds towards zero. *)
Lemma py_int_quot (f : float) (num den : Z) :
  exact_ratio f = Some (num, den) -> py_int f = Ok (num ÷ den).
Proof.
  destruct f as [s|s| |s m e]; simpl; try discriminate.
  - now intros [= <- <-].
  - destruct (Z.leb_spec 0 e) as [He|He]; intros [= <- <-]; f_equal.
    + rewrite Z.quot_1_r. destruct s; [|reflexivity].
      rewrite <- Z.mul_opp_l. reflexivity.
    + assert (Hd : 0 < 2 ^ (- e)) by (apply Z.pow_pos_nonneg; lia).
      destruct s.
      * change (Z.neg m) with (- Z.pos m).
        rewrite Z.quot_opp_l by lia. f_equal.
        symmetry. apply Z.quot_div_nonneg; lia.
      * symmetry. apply Z.quot_div_nonneg; lia.
Qed.

Lemma py_int_raises_iff_not_finite (f : float) :
  exact_ratio f = None <-> exists e, py_int f = Raise e.
Proof.
  destruct f; simpl; split; try discriminate; eauto;
    intros [x Hx]; discriminate.
Qed.

Lemma float_3_14_half_ulp :
  exact_ratio float_3_14 = Some (7070651414971679, 2 ^ 51) /\
  2 * Z.abs (100 * 7070651414971679 - 314 * 2 ^ 51) <= 100.
Proof. split; [reflexivity | vm_compute; discriminate]. Qed.

(** The float converter never raises. *)
Lemma parse_float_returns (v : pyval) : exists r, _parse_float v = Ok r.
Proof.
  unfold _parse_float.
  destruct (negb (truthy v) || negb (isinstance_str v)); [eauto|].
  cbv zeta. destruct (negb (truthy _)); [eauto|].
  destruct (py_float _) as [f|e] eqn:Hf; simpl; [eauto|].
  rewrite (py_float_raises_value_error _ _ Hf). eauto.
Qed.

(** The truncated-string converter never raises on text. *)
Lemma truncate50_returns (s : str) : exists r, truncate50 (VStr s) = Ok r.
Proof. unfold truncate50. destruct (truthy (VStr s)); eauto. Qed.

(** The integer converters raise nothing but [OverflowError]. *)
Lemma parse_int_raises_overflow (v : pyval) (e : exn) :
  _parse_int v = Raise e -> exn_cls e = OverflowError.
Proof.
  unfold _parse_int.
  destruct (negb (truthy v) || negb (isinstance_str v)); [discriminate|].
  cbv zeta. destruct (negb (truthy _)); [discriminate|].
  destruct (py_float _) as [f|e'] eqn:Hf; simpl.
  - destruct f; simpl; try discriminate. now intros [= <-].
  - now rewrite (py_float_raises_value_error _ _ Hf).
Qed.

End ConverterFacts.


(** C6. The bounded small-integer converter is the integer converter
    followed by the range check: an integer from 0 to 255 is returned
    and any other integer gives no value; ["255"] gives 255, ["256"]
    and ["-1"] give no value.  Where the integer converter raises, on
    a text that denotes an infinity, this converter raises too instead
    of giving no value. *)
Theorem parse_tinyint_bounds_and_overflow :
  let overflow :=
    Exn OverflowError (lit "cannot convert float infinity to integer") in
  (forall (v : pyval) (n : Z),
     _parse_int v = Ok (VInt n) ->
     _parse_tinyint v =
       Ok (if (0 <=? n) && (n <=? 255) then VInt n else VNone)) /\
  (forall v : pyval, _parse_int v = Ok VNone -> _parse_tinyint v = Ok VNone) /\
  (forall (v : pyval) (e : exn),
     _parse_int v = Raise e -> _parse_tinyint v = Raise e) /\
  _parse_tinyint (VStr (lit "255")) = Ok (VInt 255) /\
  _parse_tinyint (VStr (lit "256")) = Ok VNone /\
  _parse_tinyint (VStr (lit "-1")) = Ok VNone /\
  _parse_tinyint (VStr (lit "1e999")) = Raise overflow /\
  _parse_tinyint (VStr (lit "-inf")) = Raise overflow.
Proof.
  intros overflow.
  assert (Hrel : forall v : pyval,
            _parse_tinyint v =
              match _parse_int v with
              | Ok (VInt n) =>
                  Ok (if (0 <=? n) && (n <=? 255) then VInt n else VNone)
              | r => r
              end).
  { intros v. unfold _parse_tinyint, _parse_int.
    destruct (negb (truthy v) || negb (isinstance_str v)); [reflexivity|].
    cbv zeta. destruct (negb (truthy _)); [reflexivity|].
    destruct (py_float _) as [f|e]; simpl.
    - destruct (py_int f) as [n|e]; simpl.
      + destruct ((0 <=? n) && (n <=? 255)); reflexivity.
      + destruct (exn_cls e); reflexivity.
    - destruct (exn_cls e); reflexivity. }
  split; [|split; [|split; [|repeat split; vm_compute; reflexivity]]].
  - intros v n Hv. now rewrite Hrel, Hv.
  - intros v Hv. now rewrite Hrel, Hv.
  - intros v e Hv. now rewrite Hrel, Hv.
Qed.

(** C7. The integer converter trims the text; an empty text gives no
    value; otherwise commas become periods and the text is parsed as a
    float: a parse failure gives no value, a finite float gives its
    integer part, rounded towards zero, and a NaN gives no value.
    ["5,00"] and ["5.9"] give 5.  A text that denotes an infinity has
    no integer part: there the converter raises [OverflowError] instead
    of giving no value. *)
Theorem parse_int_truncates_or_overflows :
  let overflow :=
    Exn OverflowError (lit "cannot convert float infinity to integer") in
  (forall s : str, strip s = [] -> _parse_int (VStr s) = Ok VNone) /\
  (forall (s : str) (e : exn),
     strip s <> [] -> py_float (replace_comma (strip s)) = Raise e ->
     _parse_int (VStr s) = Ok VNone) /\
  (forall (s : str) (f : float) (num den : Z),
     strip s <> [] -> py_float (replace_comma (strip s)) = Ok f ->
     exact_ratio f = Some (num, den) ->
     _parse_int (VStr s) = Ok (VInt (num ÷ den))) /\
  (forall s : str,
     strip s <> [] -> py_float (replace_comma (strip s)) = Ok S754_nan ->
     _parse_int (VStr s) = Ok VNone) /\
  (forall (s : str) (neg : bool),
     strip s <> [] ->
     py_float (replace_comma (strip s)) = Ok (S754_infinity neg) ->
     _parse_int (VStr s) = Raise overflow) /\
  _parse_int (VStr (lit "5,00")) = Ok (VInt 5) /\
  _parse_int (VStr (lit "5.9")) = Ok (VInt 5) /\
  _parse_int (VStr (lit "-5.9")) = Ok (VInt (-5)) /\
  _parse_int (VStr (lit "abc")) = Ok VNone /\
  _parse_int (VStr (lit "nan")) = Ok VNone /\
  _parse_int (VStr (lit "1e999")) = Raise overflow /\
  _parse_int (VStr (lit "-Infinity")) = Raise overflow.
Proof.
  intros overflow.
  assert (Hstep : forall s : str, strip s <> [] ->
            _parse_int (VStr s) =
              except_value_error
                (f ← py_float (replace_comma (strip s));
                 n ← py_int f; Ok (VInt n))).
  { intros s H. unfold _parse_int.
    assert (Hs : negb (truthy (VStr s)) || negb (isinstance_str (VStr s))
                 = false).
    { destruct s as [|c r]; [now destruct H | reflexivity]. }
    rewrite Hs. cbv zeta. cbn [str_of truthy].
    rewrite bool_decide_eq_false_2 by exact H. reflexivity. }
  split; [|split; [|split; [|split; [|split;
    [|repeat split; vm_compute; reflexivity]]]]].
  - intros s H. unfold _parse_int.
    destruct (negb (truthy (VStr s)) || _); [reflexivity|].
    cbv zeta. simpl str_of. rewrite H. reflexivity.
  - intros s e H Hf. rewrite (Hstep s H), Hf. simpl.
    now rewrite (py_float_raises_value_error _ _ Hf).
  - intros s f num den H Hf Hr. rewrite (Hstep s H), Hf. simpl.
    now rewrite (py_int_quot f num den Hr).
  - intros s H Hf. rewrite (Hstep s H), Hf. reflexivity.
  - intros s neg H Hf. rewrite (Hstep s H), Hf. reflexivity.
Qed.

(** C3. The converters are meant never to raise, yet the integer and the
    bounded small-integer converters let [OverflowError] through when
    the text denotes an infinity. *)
Theorem parse_int_raises_on_infinity :
  let overflow :=
    Exn OverflowError (lit "cannot convert float infinity to integer") in
  _parse_int (VStr (lit "inf")) = Raise overflow /\
  _parse_tinyint (VStr (lit "inf")) = Raise overflow /\
  _parse_int (VStr (lit "1e999")) = Raise overflow /\
  _parse_tinyint (VStr (lit "-Infinity")) = Raise overflow.
Proof. repeat split; vm_compute; reflexivity. Qed.

(** C5, as stated: the truncated-string converter does not trim, so a
    text of white space only is a value for it. *)
Lemma truncate50_keeps_blank_text :
  ~ (forall s : str,
       forallb is_space s = true ->
       _parse_float (VStr s) = Ok VNone /\ _parse_int (VStr s) = Ok VNone /\
       _parse_tinyint (VStr s) = Ok VNone /\ truncate50 (VStr s) = Ok VNone).
Proof.
  intros H. specialize (H (lit " ") eq_refl).
  destruct H as (_ & _ & _ & H). vm_compute in H. discriminate.
Qed.

(** C5, amended. On a text that is empty or white space only, the float,
    integer and bounded small-integer converters give no value; the
    truncated-string converter gives no value on the empty text; and
    since the row validator trims before it converts, the converter of
    every column gives no value on the trimmed text. *)
Theorem blank_text_converts_to_no_value (s : str) :
  forallb is_space s = true ->
  _parse_float (VStr s) = Ok VNone /\
  _parse_int (VStr s) = Ok VNone /\
  _parse_tinyint (VStr s) = Ok VNone /\
  truncate50 (VStr []) = Ok VNone /\
  (forall (col : str) (def : column_def),
     (col, def) ∈ COLUMN_DEFS -> converter def (VStr (strip s)) = Ok VNone).
Proof.
  intros H. pose proof (strip_all_space s H) as Hs.
  assert (Hc : forall f : pyval -> result pyval,
    (forall v, f v =
       if negb (truthy v) || negb (isinstance_str v) then Ok VNone
       else if negb (truthy (VStr (strip (str_of v)))) then Ok VNone
       else f v) -> f (VStr s) = Ok VNone).
  { intros f Hf. rewrite Hf.
    destruct (negb (truthy (VStr s)) || _); [reflexivity|].
    simpl str_of. rewrite Hs. reflexivity. }
  split; [|split; [|split; [|split; [reflexivity|]]]].
  - apply Hc. intros v. unfold _parse_float.
    destruct (_ || _); [reflexivity|]. cbv zeta.
    destruct (negb _); reflexivity.
  - apply Hc. intros v. unfold _parse_int.
    destruct (_ || _); [reflexivity|]. cbv zeta.
    destruct (negb _); reflexivity.
  - apply Hc. intros v. unfold _parse_tinyint.
    destruct (_ || _); [reflexivity|]. cbv zeta.
    destruct (negb _); reflexivity.
  - rewrite Hs. intros col def Hin.
    assert (Hall : Forall (fun cd : str * column_def =>
               converter cd.2 (VStr []) = Ok VNone) COLUMN_DEFS)
      by (repeat constructor).
    rewrite Forall_forall in Hall. exact (Hall _ Hin).
Qed.

Lemma blank_text_converts_to_no_value_witness :
  forallb is_space (lit "  ") = true /\
  _parse_float (VStr (lit "  ")) = Ok VNone.
Proof.
  split; [reflexivity|].
  exact (proj1 (blank_text_converts_to_no_value (lit "  ") eq_refl)).
Defined.

(** ** Row validator *)

Section ValidatorFacts.

Context (row : gmap str pyval).

Lemma get_raw_value_cell_text (col_name raw : str) :
  get_raw_value row col_name = Ok raw -> raw = cell_text row col_name.
Proof.
  unfold get_raw_value, cell_text.
  destruct (row !! col_name) as [[]|]; simpl; congruence.
Qed.

Lemma validate_column_spec (st st' : row_state) (col : str * column_def) :
  validate_column row st col = Ok st' ->
  converted st' = <[col.1 := converted_value row col]> (converted st) /\
  errors st' = errors st ++ column_errors row col /\
  raw_values st' = <[col.1 := cell_text row col.1]> (raw_values st).
Proof.
  destruct col as [col_name col_def]. unfold validate_column.
  destruct (get_raw_value row col_name) as [raw|e] eqn:Hraw;
    [|discriminate].
  apply get_raw_value_cell_text in Hraw as ->. simpl mbind.
  unfold converted_value, column_errors, result_bind. simpl fst. simpl snd.
  destruct (converter col_def _) as [val|e]; simpl.
  - intros [= <-]. simpl.
    destruct (bool_decide _); [destruct val|];
      rewrite ?app_nil_r; auto.
  - intros [= <-]. simpl. destruct (bool_decide _); simpl;
      rewrite <- ?app_assoc; auto.
Qed.

Lemma validate_columns_spec (cols : list (str * column_def))
    (st st' : row_state) :
  validate_columns row st cols = Ok st' ->
  errors st' = errors st ++ flat_map (column_errors row) cols /\
  (forall col, col ∉ cols.*1 ->
     converted st' !! col = converted st !! col /\
     raw_values st' !! col = raw_values st !! col) /\
  (NoDup cols.*1 ->
   forall cd, cd ∈ cols ->
     converted st' !! cd.1 = Some (converted_value row cd) /\
     raw_values st' !! cd.1 = Some (cell_text row cd.1)).
Proof.
  revert st. induction cols as [|cd cols IH]; intros st; simpl.
  - intros [= <-]. rewrite app_nil_r. split; [done|]. split; [done|].
    intros _ cd Hin. by apply elem_of_nil in Hin.
  - destruct (validate_column row st cd) as [st1|e] eqn:H1; [|discriminate].
    simpl. intros H2.
    destruct (validate_column_spec _ _ _ H1) as (Hc & He & Hr).
    destruct (IH _ H2) as (IHe & IHout & IHin).
    split; [|split].
    + now rewrite IHe, He, <- app_assoc.
    + intros col Hcol. apply not_elem_of_cons in Hcol as [Hne Hcol].
      destruct (IHout col Hcol) as [-> ->]. rewrite Hc, Hr.
      now rewrite !lookup_insert_ne by done.
    + intros Hnd cd' Hin. apply NoDup_cons in Hnd as [Hnotin Hnd].
      apply elem_of_cons in Hin as [->|Hin]; [|by apply IHin].
      destruct (IHout _ Hnotin) as [-> ->]. rewrite Hc, Hr.
      now rewrite !lookup_insert_eq.
Qed.

Lemma flat_map_nil_elem {A B} (f : A -> list B) (l : list A) (x : A) :
  flat_map f l = [] -> x ∈ l -> f x = [].
Proof.
  induction l as [|y l IH]; simpl; intros Hnil Hin.
  - by apply elem_of_nil in Hin.
  - apply app_eq_nil in Hnil as [Hy Hl].
    apply elem_of_cons in Hin as [->|Hin]; auto.
Qed.

Lemma flat_map_nil_Forall {A B} (f : A -> list B) (l : list A) :
  Forall (fun x => f x = []) l -> flat_map f l = [].
Proof.
  induction 1 as [|x l Hx _ IH]; simpl; [reflexivity|].
  now rewrite Hx, IH.
Qed.

Lemma column_defs_nodup : NoDup COLUMN_DEFS.*1.
Proof.
  apply (bool_decide_unpack (NoDup COLUMN_DEFS.*1)). vm_compute. exact I.
Qed.

Lemma required_fields_in_schema (col : str) :
  col ∈ REQUIRED_FIELDS -> exists def, (col, def) ∈ COLUMN_DEFS.
Proof.
  intros Hin.
  assert (Hall : Forall (fun c => c ∈ COLUMN_DEFS.*1) REQUIRED_FIELDS).
  { apply (bool_decide_unpack
             (Forall (fun c => c ∈ COLUMN_DEFS.*1) REQUIRED_FIELDS)).
    vm_compute. exact I. }
  rewrite Forall_forall in Hall. specialize (Hall _ Hin).
  apply list_elem_of_fmap in Hall as ([c def] & -> & Hcd). eauto.
Qed.

Lemma column_errors_nil (cd : str * column_def) :
  column_errors row cd = [] <->
  (exists val, converter cd.2 (VStr (cell_text row cd.1)) = Ok val) /\
  (cd.1 ∈ REQUIRED_FIELDS -> converted_value row cd <> VNone).
Proof.
  unfold column_errors, converted_value.
  destruct (converter cd.2 _) as [val|e].
  - case_bool_decide as Hreq.
    + destruct val; split; try discriminate; intros H; eauto;
        try (split; [eauto | intros _; discriminate]).
      destruct H as [_ H]. now destruct (H Hreq).
    + split; [|done]. intros _. split; [eauto | done].
  - split; [discriminate|]. intros [[val H] _]. discriminate.
Qed.

Lemma validate_and_convert_row_spec (row_num : Z) (v : validation) :
  validate_and_convert_row row_num row = Ok v ->
  let es := flat_map (column_errors row) COLUMN_DEFS in
  is_valid v = bool_decide (es = []) /\
  error_msg v = match es with [] => None | _ => Some (join newline es) end /\
  (forall cd, cd ∈ COLUMN_DEFS ->
     v_converted v !! cd.1 = Some (converted_value row cd) /\
     v_raw_values v !! cd.1 = Some (cell_text row cd.1)) /\
  (forall col, col ∉ COLUMN_DEFS.*1 -> v_raw_values v !! col = None).
Proof.
  unfold validate_and_convert_row.
  destruct (validate_columns row _ COLUMN_DEFS) as [st|e] eqn:Hst;
    [|discriminate].
  cbn [mbind result_bind]. intros [= <-].
  cbn [is_valid error_msg v_converted v_raw_values].
  destruct (validate_columns_spec _ _ _ Hst) as (He & Hout & Hin).
  cbn [errors app] in He. rewrite He. split; [|split; [|split]].
  - destruct (flat_map _ _); reflexivity.
  - reflexivity.
  - exact (Hin column_defs_nodup).
  - intros col Hcol. destruct (Hout col Hcol) as [_ ->]. done.
Qed.

(** A row whose cells are all text is validated without raising. *)
Lemma validate_columns_returns (cols : list (str * column_def))
    (st : row_state) :
  text_row row -> exists st', validate_columns row st cols = Ok st'.
Proof.
  intros Htext. revert st.
  induction cols as [|[col def] cols IH]; intros st; simpl; [eauto|].
  unfold validate_column.
  assert (Hraw : exists raw, get_raw_value row col = Ok raw).
  { unfold get_raw_value. pose proof (Htext col) as H.
    destruct (row !! col) as [[| |f|n]|]; eauto;
      specialize (H _ eq_refl); discriminate. }
  destruct Hraw as [raw ->]. simpl.
  destruct (converter def (VStr raw)); simpl; apply IH.
Qed.

Lemma validate_and_convert_row_returns (row_num : Z) :
  text_row row -> exists v, validate_and_convert_row row_num row = Ok v.
Proof.
  intros Htext. unfold validate_and_convert_row.
  destruct (validate_columns_returns COLUMN_DEFS (RowState ∅ [] ∅) Htext)
    as [st ->].
  cbn [mbind result_bind]. eauto.
Qed.

End ValidatorFacts.

(** C2, as stated: a conversion that raises in an optional column makes
    the row invalid although every required field has a value. *)
Lemma fault_in_optional_column_invalidates :
  match validate_and_convert_row 2 infinite_floor_row with
  | Ok v =>
      is_valid v = false /\
      (forall col, col ∈ REQUIRED_FIELDS -> v_converted v !! col <> Some VNone) /\
      lit "floor" ∉ REQUIRED_FIELDS
  | Raise _ => False
  end.
Proof.
  destruct (validate_and_convert_row 2 infinite_floor_row) as [v|e] eqn:Hv;
    vm_compute in Hv; [|discriminate].
  injection Hv as <-. split; [reflexivity|]. split.
  - intros col Hcol.
    repeat (apply elem_of_cons in Hcol as [->|Hcol];
            [vm_compute; discriminate|]).
    by apply elem_of_nil in Hcol.
  - apply (bool_decide_unpack (lit "floor" ∉ REQUIRED_FIELDS)).
    vm_compute. exact I.
Qed.

(** C2, amended. The row is valid iff no converter raised and no
    required field converted to no value; every column is stored with
    what its converter returned, or null when it raised, so an optional
    column that converts to no value is stored as null and leaves the
    row valid. *)
Theorem row_valid_iff (row_num : Z) (row : gmap str pyval) (v : validation) :
  validate_and_convert_row row_num row = Ok v ->
  (is_valid v = true <->
     (forall col def, (col, def) ∈ COLUMN_DEFS ->
        exists val, converter def (VStr (cell_text row col)) = Ok val) /\
     (forall col, col ∈ REQUIRED_FIELDS ->
        v_converted v !! col <> Some VNone)) /\
  (forall col def, (col, def) ∈ COLUMN_DEFS ->
     v_converted v !! col =
       Some match converter def (VStr (cell_text row col)) with
            | Ok val => val
            | Raise _ => VNone
            end).
Proof.
  intros Hv.
  destruct (validate_and_convert_row_spec row row_num v Hv)
    as (Hvalid & _ & Hstore & _).
  split.
  - rewrite Hvalid, bool_decide_eq_true. split.
    + intros Hnil. split.
      * intros col def Hin.
        pose proof (flat_map_nil_elem _ _ _ Hnil Hin) as Hcd.
        apply column_errors_nil in Hcd as [H _]. exact H.
      * intros col Hreq.
        destruct (required_fields_in_schema col Hreq) as [def Hin].
        destruct (Hstore _ Hin) as [Hs _]. cbn [fst] in Hs. rewrite Hs.
        intros [= Hnone].
        pose proof (flat_map_nil_elem _ _ _ Hnil Hin) as Hcd.
        apply column_errors_nil in Hcd as [_ H]. exact (H Hreq Hnone).
    + intros [Hok Hreq].
      assert (Hall : Forall (fun cd => column_errors row cd = []) COLUMN_DEFS).
      { apply Forall_forall. intros [col def] Hin.
        apply column_errors_nil. split; [exact (Hok col def Hin)|].
        cbn [fst]. intros Hr Hnone. apply (Hreq col Hr).
        destruct (Hstore _ Hin) as [Hs _]. cbn [fst] in Hs.
        now rewrite Hs, Hnone. }
      exact (flat_map_nil_Forall _ _ Hall).
  - intros col def Hin. destruct (Hstore _ Hin) as [H _]. exact H.
Qed.

Lemma row_valid_iff_witness :
  exists v,
    validate_and_convert_row 2 bad_floor_row = Ok v /\
    (is_valid v = true <->
       (forall col def, (col, def) ∈ COLUMN_DEFS ->
          exists val,
            converter def (VStr (cell_text bad_floor_row col)) = Ok val) /\
       (forall col, col ∈ REQUIRED_FIELDS ->
          v_converted v !! col <> Some VNone)) /\
    (forall col def, (col, def) ∈ COLUMN_DEFS ->
       v_converted v !! col =
         Some match converter def (VStr (cell_text bad_floor_row col)) with
              | Ok val => val
              | Raise _ => VNone
              end).
Proof.
  eexists. split; [vm_compute; reflexivity|].
  apply (row_valid_iff 2 bad_floor_row). vm_compute. reflexivity.
Defined.

(** A malformed floor is stored as null and the row stays valid. *)
Example bad_floor_row_accepted :
  match validate_and_convert_row 2 bad_floor_row with
  | Ok v => is_valid v = true /\ v_converted v !! lit "floor" = Some VNone
  | Raise _ => False
  end.
Proof. vm_compute. split; reflexivity. Qed.

(** An empty price, a required field, makes the row invalid. *)
Example empty_price_row_rejected :
  match validate_and_convert_row 3 empty_price_row with
  | Ok v =>
      is_valid v = false /\
      error_msg v =
        Some (lit "  price: Missing or invalid (raw value: '')")
  | Raise _ => False
  end.
Proof. vm_compute. split; reflexivity. Qed.

Lemma cell_text_trimmed (row : gmap str pyval) (col : str) (c : N) :
  head (cell_text row col) = Some c \/ last (cell_text row col) = Some c ->
  is_space c = false.
Proof.
  unfold cell_text. destruct (row !! col) as [[|s|f|n]|];
    try (intros [H|H]; discriminate).
  intros [H|H]; [exact (strip_head s c H) | exact (strip_last s c H)].
Qed.

(** C10. The raw values the validator records are the trimmed texts of
    the cells: a recorded raw value neither starts nor ends with white
    space, and every message in the error text is either the
    "Missing or invalid" message built from the trimmed text or the
    message of a fault raised on the trimmed text. *)
Theorem raw_values_are_trimmed (row_num : Z) (row : gmap str pyval)
    (v : validation) :
  validate_and_convert_row row_num row = Ok v ->
  (forall col def s, (col, def) ∈ COLUMN_DEFS ->
     row !! col = Some (VStr s) -> v_raw_values v !! col = Some (strip s)) /\
  (forall col raw c, v_raw_values v !! col = Some raw ->
     head raw = Some c \/ last raw = Some c -> is_space c = false) /\
  (exists es,
     error_msg v = match es with [] => None | _ => Some (join newline es) end /\
     forall m, m ∈ es ->
       exists col def raw,
         (col, def) ∈ COLUMN_DEFS /\ v_raw_values v !! col = Some raw /\
         (m = missing_message col raw \/
          exists e, converter def (VStr raw) = Raise e /\
                    m = fault_message col e)).
Proof.
  intros Hv.
  destruct (validate_and_convert_row_spec row row_num v Hv)
    as (_ & Hmsg & Hstore & Hout).
  split; [|split].
  - intros col def s Hin Hs. destruct (Hstore _ Hin) as [_ Hr].
    cbn [fst] in Hr. rewrite Hr. unfold cell_text. now rewrite Hs.
  - intros col raw c Hraw Hc.
    destruct (decide (col ∈ COLUMN_DEFS.*1)) as [Hin|Hnin].
    + apply list_elem_of_fmap in Hin as (cd & Hcol & Hin).
      destruct (Hstore _ Hin) as [_ Hr]. rewrite <- Hcol in Hr.
      pose proof (eq_trans (eq_sym Hraw) Hr) as [= ->].
      exact (cell_text_trimmed _ _ _ Hc).
    + pose proof (eq_trans (eq_sym Hraw) (Hout _ Hnin)). discriminate.
  - exists (flat_map (column_errors row) COLUMN_DEFS). split; [exact Hmsg|].
    intros m Hm. apply list_elem_of_In, in_flat_map in Hm as (cd & Hin & Hm).
    apply list_elem_of_In in Hin. destruct (Hstore _ Hin) as [_ Hr].
    destruct cd as [col def]. cbn [fst] in Hr.
    exists col, def, (cell_text row col). split; [exact Hin|].
    split; [exact Hr|].
    unfold column_errors in Hm. cbn [fst snd] in Hm.
    destruct (converter def _) as [val|e] eqn:Hconv.
    + case_bool_decide; [|destruct Hm].
      destruct val; [|destruct Hm ..]. destruct Hm as [<-|[]]. now left.
    + destruct Hm as [<-|Hm]; [right; eauto|].
      case_bool_decide; [|destruct Hm]. destruct Hm as [<-|[]]. now left.
Qed.

Lemma raw_values_are_trimmed_witness :
  exists v,
    validate_and_convert_row 3 empty_price_row = Ok v /\
    v_raw_values v !! lit "price" = Some [].
Proof.
  eexists. split; [vm_compute; reflexivity|].
  eapply (proj1 (raw_values_are_trimmed 3 empty_price_row _ _)
            (lit "price") _ (lit "  ")).
  - apply list_elem_of_here.
  - vm_compute. reflexivity.
  Unshelve. vm_compute. reflexivity.
Defined.

(** ** Batch loader *)

Section LoaderFacts.

Context `{Cursor C}.

Implicit Types (st : loader_state C) (rows : list (Z * gmap str pyval)).

Lemma process_rows_app st rows1 rows2 :
  process_rows st (rows1 ++ rows2) =
  st' ← process_rows st rows1; process_rows st' rows2.
Proof.
  revert st. induction rows1 as [|r rows1 IH]; intros st; simpl;
    [reflexivity|].
  destruct (process_row st r) as [st1|e]; simpl; [apply IH | reflexivity].
Qed.

(** One row moves exactly one of the two counters, by one. *)
Lemma process_row_counts st st' (r : Z * gmap str pyval) :
  process_row st r = Ok st' ->
  (inserted st' = inserted st + 1 /\ rejected st' = rejected st) \/
  (inserted st' = inserted st /\ rejected st' = rejected st + 1).
Proof.
  destruct r as [row_num row]. unfold process_row.
  destruct (validate_and_convert_row row_num row) as [v|e]; [|discriminate].
  cbn [mbind result_bind].
  destruct (is_valid v); cbn [negb].
  - destruct (insert_values _ _) as [values|e]; [|discriminate].
    cbn [mbind result_bind].
    destruct (execute (cursor st) values) as [c [e|]]; intros [= <-];
      simpl; auto.
  - intros [= <-]. simpl. auto.
Qed.

Lemma process_rows_counts st st' rows :
  process_rows st rows = Ok st' ->
  inserted st' + rejected st' =
    inserted st + rejected st + Z.of_nat (length rows) /\
  inserted st <= inserted st' /\ rejected st <= rejected st'.
Proof.
  revert st. induction rows as [|r rows IH]; intros st; simpl.
  - intros [= <-]. lia.
  - destruct (process_row st r) as [st1|e] eqn:H1; [|discriminate].
    cbn [mbind result_bind]. intros H2. apply IH in H2.
    apply process_row_counts in H1. lia.
Qed.

Lemma process_row_samples st st' (r : Z * gmap str pyval) :
  process_row st r = Ok st' ->
  rejected_samples st' =
    rejected_samples st ++
      take (20 - length (rejected_samples st)) (rejected_sample r).
Proof.
  destruct r as [row_num row]. unfold process_row, rejected_sample.
  cbn [fst snd].
  destruct (validate_and_convert_row row_num row) as [v|e]; [|discriminate].
  cbn [mbind result_bind].
  destruct (is_valid v); cbn [negb].
  - destruct (insert_values _ _) as [values|e]; [|discriminate].
    cbn [mbind result_bind].
    destruct (execute (cursor st) values) as [c [e|]]; intros [= <-];
      simpl; now rewrite take_nil, app_nil_r.
  - intros [= <-]. unfold reject_invalid. cbn [rejected_samples].
    destruct (Z.ltb_spec (Z.of_nat (length (rejected_samples st))) 20)
      as [Hlt|Hge].
    + replace (20 - length (rejected_samples st))%nat
        with (S (19 - length (rejected_samples st))) by lia.
      cbn [take]. now rewrite take_nil.
    + replace (20 - length (rejected_samples st))%nat with 0%nat by lia.
      now rewrite app_nil_r.
Qed.

Lemma process_rows_samples st st' rows :
  process_rows st rows = Ok st' ->
  rejected_samples st' =
    rejected_samples st ++
      take (20 - length (rejected_samples st)) (validation_rejects rows).
Proof.
  revert st. induction rows as [|r rows IH]; intros st; simpl.
  - intros [= <-]. now rewrite take_nil, app_nil_r.
  - destruct (process_row st r) as [st1|e] eqn:H1; [|discriminate].
    cbn [mbind result_bind]. intros H2. apply IH in H2.
    apply process_row_samples in H1. rewrite H2, H1, <- app_assoc.
    f_equal. rewrite length_app, take_app.
    f_equal. rewrite length_take. f_equal.
    assert (length (rejected_sample r) <= 1)%nat.
    { unfold rejected_sample.
      destruct (validate_and_convert_row _ _) as [v|]; [|simpl; lia].
      destruct (is_valid v); simpl; lia. }
    lia.
Qed.

Lemma validation_rejects_in_order rows :
  sample_row <$> validation_rejects rows `sublist_of` rows.*1.
Proof.
  induction rows as [|r rows IH]; [constructor|].
  unfold validation_rejects. simpl. rewrite fmap_app.
  fold (validation_rejects rows). unfold rejected_sample.
  destruct (validate_and_convert_row _ _) as [v|];
    [|now apply sublist_cons].
  destruct (is_valid v); simpl;
    [now apply sublist_cons | now apply sublist_skip].
Qed.

(** The tuple of values can always be built from what the validator
    returns. *)
Lemma insert_values_returns (converted : gmap str pyval) (keys : list str) :
  (forall key, key ∈ keys -> is_Some (converted !! key)) ->
  exists values, insert_values converted keys = Ok values.
Proof.
  induction keys as [|key keys IH]; intros Hkeys; simpl; [eauto|].
  unfold subscript.
  destruct (Hkeys key) as [v ->]; [apply list_elem_of_here|].
  cbn [mbind result_bind].
  destruct IH as [values ->].
  { intros k Hk. apply Hkeys. now apply list_elem_of_further. }
  simpl. eauto.
Qed.

Lemma insert_columns_in_schema (key : str) :
  key ∈ INSERT_COLUMNS -> key ∈ COLUMN_DEFS.*1.
Proof.
  assert (Hall : Forall (fun c => c ∈ COLUMN_DEFS.*1) INSERT_COLUMNS).
  { apply (bool_decide_unpack
             (Forall (fun c => c ∈ COLUMN_DEFS.*1) INSERT_COLUMNS)).
    vm_compute. exact I. }
  rewrite Forall_forall in Hall. apply Hall.
Qed.

(** A row whose cells are all text never makes the loop raise. *)
Lemma process_row_returns st (r : Z * gmap str pyval) :
  text_row r.2 -> exists st', process_row st r = Ok st'.
Proof.
  destruct r as [row_num row]. cbn [snd]. intros Htext.
  unfold process_row.
  destruct (validate_and_convert_row_returns row row_num Htext) as [v Hv].
  rewrite Hv. cbn [mbind result_bind].
  destruct (is_valid v); cbn [negb]; [|eauto].
  destruct (insert_values_returns (v_converted v) INSERT_COLUMNS)
    as [values ->].
  { intros key Hkey.
    apply insert_columns_in_schema, list_elem_of_fmap in Hkey
      as (cd & -> & Hcd).
    destruct (validate_and_convert_row_spec row row_num v Hv)
      as (_ & _ & Hstore & _).
    destruct (Hstore cd Hcd) as [-> _]. eauto. }
  cbn [mbind result_bind].
  destruct (execute (cursor st) values) as [c [e|]]; eauto.
Qed.

Lemma process_rows_returns st rows :
  Forall (fun r => text_row r.2) rows ->
  exists st', process_rows st rows = Ok st'.
Proof.
  intros Hrows. revert st.
  induction Hrows as [|r rows Hr _ IH]; intros st; simpl; [eauto|].
  destruct (process_row_returns st r Hr) as [st1 ->].
  cbn [mbind result_bind]. apply IH.
Qed.

End LoaderFacts.

(** The loop can only fail in the validator; a run whose rows are all
    text fails, if at all, at the commit. *)
Lemma insert_rows_raises_only_at_commit `{Cursor C} (cur : C)
    (rows : list (Z * gmap str pyval)) :
  Forall (fun r => text_row r.2) rows ->
  exists st,
    process_rows (LoaderState 0 0 [] cur) rows = Ok st /\
    insert_rows cur rows =
      match commit (cursor st) with
      | (c, None) =>
          Ok (LoaderState (inserted st) (rejected st) (rejected_samples st) c)
      | (_, Some e) => Raise e
      end.
Proof.
  intros Hrows. unfold insert_rows.
  destruct (process_rows_returns (LoaderState 0 0 [] cur) rows Hrows)
    as [st ->].
  exists st. split; reflexivity.
Qed.

Lemma insert_rows_inv `{Cursor C} (cur : C)
    (rows : list (Z * gmap str pyval)) (st : loader_state C) :
  insert_rows cur rows = Ok st ->
  exists st0,
    process_rows (LoaderState 0 0 [] cur) rows = Ok st0 /\
    inserted st = inserted st0 /\ rejected st = rejected st0 /\
    rejected_samples st = rejected_samples st0.
Proof.
  unfold insert_rows.
  destruct (process_rows _ rows) as [st0|e]; [|discriminate].
  cbn [mbind result_bind].
  destruct (commit (cursor st0)) as [c [e|]]; [discriminate|].
  intros [= <-]. exists st0. auto.
Qed.

(** C1. After a complete run every row has been counted once, as
    inserted or as rejected: the two counters add up to the number of
    input rows. *)
Theorem insert_rows_counts_every_row `{Cursor C} (cur : C)
    (rows : list (Z * gmap str pyval)) (st : loader_state C) :
  insert_rows cur rows = Ok st ->
  inserted st + rejected st = Z.of_nat (length rows) /\
  0 <= inserted st /\ 0 <= rejected st.
Proof.
  intros Hrun.
  destruct (insert_rows_inv cur rows st Hrun) as (st0 & Hloop & -> & -> & _).
  apply process_rows_counts in Hloop. simpl in Hloop. lia.
Qed.

Lemma insert_rows_counts_every_row_witness :
  exists st : loader_state (list (list pyval)),
    insert_rows [] three_rows = Ok st /\
    inserted st + rejected st = Z.of_nat (length three_rows) /\
    0 <= inserted st /\ 0 <= rejected st.
Proof.
  eexists. split; [vm_compute; reflexivity|].
  apply (insert_rows_counts_every_row (C := list (list pyval)) []).
  vm_compute. reflexivity.
Defined.

(** One row inserted, two rejected, and both rejected rows sampled. *)
Example three_rows_summary :
  match insert_rows (C := list (list pyval)) [] three_rows with
  | Ok st =>
      inserted st = 1 /\ rejected st = 2 /\
      sample_row <$> rejected_samples st = [3; 4]
  | Raise _ => False
  end.
Proof. vm_compute. repeat split; reflexivity. Qed.

(** A row that validation rejects is dealt with on the spot: the
    rejected counter goes up by one, the row is sampled while fewer than
    twenty samples are held, the cursor is not touched, and the loop
    goes on with the next row. *)
Lemma invalid_row_is_rejected_and_loop_continues `{Cursor C}
    (st : loader_state C) (row_num : Z) (row : gmap str pyval)
    (rest : list (Z * gmap str pyval)) (v : validation) :
  validate_and_convert_row row_num row = Ok v ->
  is_valid v = false ->
  let st' := reject_invalid st row_num v in
  process_rows st ((row_num, row) :: rest) = process_rows st' rest /\
  inserted st' = inserted st /\
  rejected st' = rejected st + 1 /\
  cursor st' = cursor st /\
  ((length (rejected_samples st) < 20)%nat ->
     rejected_samples st' =
       rejected_samples st ++
         [Sample row_num (error_msg v) (v_raw_values v)]) /\
  ((20 <= length (rejected_samples st))%nat ->
     rejected_samples st' = rejected_samples st).
Proof.
  intros Hv Hinvalid st'. split.
  - cbn [process_rows]. unfold process_row. rewrite Hv.
    cbn [mbind result_bind]. rewrite Hinvalid. reflexivity.
  - subst st'. unfold reject_invalid. cbn. repeat split.
    + intros Hlt.
      destruct (Z.ltb_spec (Z.of_nat (length (rejected_samples st))) 20);
        [reflexivity | lia].
    + intros Hge.
      destruct (Z.ltb_spec (Z.of_nat (length (rejected_samples st))) 20);
        [lia | reflexivity].
Qed.

Section ShortLineFacts.

Context (row : gmap str pyval).

(** A cell that is not text makes the validator raise: [strip] is
    called on it before any [try]. *)
Lemma validate_columns_none (cols : list (str * column_def))
    (st : row_state) (col : str) :
  col ∈ cols.*1 -> row !! col = Some VNone ->
  exists e, validate_columns row st cols = Raise e /\
            exn_cls e = AttributeError.
Proof.
  intros Hin Hnone. revert st.
  induction cols as [|[c def] cols IH]; intros st.
  - by apply elem_of_nil in Hin.
  - cbn [validate_columns]. unfold validate_column, get_raw_value.
    destruct (row !! c) as [[|s|f|n]|] eqn:Hc;
      cbn [mbind result_bind]; eauto;
      (assert (Hrest : col ∈ cols.*1);
       [ apply elem_of_cons in Hin as [->|Hin]; [|exact Hin];
         cbn [fst] in Hnone; congruence
       | destruct (converter def _); simpl; apply (IH Hrest) ]).
Qed.

Lemma validate_and_convert_row_none (row_num : Z) (col : str) :
  col ∈ COLUMN_DEFS.*1 -> row !! col = Some VNone ->
  exists e, validate_and_convert_row row_num row = Raise e /\
            exn_cls e = AttributeError.
Proof.
  intros Hin Hnone. unfold validate_and_convert_row.
  destruct (validate_columns_none COLUMN_DEFS (RowState ∅ [] ∅) col
              Hin Hnone) as (e & -> & He).
  exists e. split; [reflexivity | exact He].
Qed.

End ShortLineFacts.

(** C4. Row-level errors are meant to be dealt with on the spot, yet a
    line shorter than the header ends the whole run: its record holds
    [None] in a column of the schema, the validator raises
    [AttributeError] and the loader passes it on, with the rows before
    it processed, the rows after it never looked at and nothing
    committed. *)
Theorem short_line_aborts_batch `{Cursor C} (cur : C)
    (pre post : list (Z * gmap str pyval)) (row_num : Z)
    (row : gmap str pyval) (col : str) :
  Forall (fun r => text_row r.2) pre ->
  col ∈ COLUMN_DEFS.*1 ->
  row !! col = Some VNone ->
  exists e,
    exn_cls e = AttributeError /\
    validate_and_convert_row row_num row = Raise e /\
    insert_rows cur (pre ++ (row_num, row) :: post) = Raise e.
Proof.
  intros Hpre Hin Hnone.
  destruct (validate_and_convert_row_none row row_num col Hin Hnone)
    as (e & Hv & He).
  exists e. split; [exact He|]. split; [exact Hv|].
  unfold insert_rows. rewrite process_rows_app.
  destruct (process_rows_returns (LoaderState 0 0 [] cur) pre Hpre)
    as [st ->].
  cbn [mbind result_bind process_rows]. unfold process_row. rewrite Hv.
  reflexivity.
Qed.

Lemma short_line_aborts_batch_witness :
  Forall (fun r : Z * gmap str pyval => text_row r.2) [(2, good_row)] /\
  lit "latitude" ∈ COLUMN_DEFS.*1 /\
  short_row !! lit "latitude" = Some VNone /\
  exists e,
    exn_cls e = AttributeError /\
    validate_and_convert_row 3 short_row = Raise e /\
    insert_rows (C := list (list pyval)) []
      ([(2, good_row)] ++ (3, short_row) :: [(4, good_row)]) = Raise e.
Proof.
  assert (H1 : Forall (fun r : Z * gmap str pyval => text_row r.2)
                 [(2, good_row)]).
  { constructor; [|constructor]. cbn [snd].
    apply (bool_decide_unpack (text_row good_row)). vm_compute. exact I. }
  assert (H2 : lit "latitude" ∈ COLUMN_DEFS.*1).
  { apply (bool_decide_unpack (lit "latitude" ∈ COLUMN_DEFS.*1)).
    vm_compute. exact I. }
  assert (H3 : short_row !! lit "latitude" = Some VNone)
    by (vm_compute; reflexivity).
  split; [exact H1|]. split; [exact H2|]. split; [exact H3|].
  exact (short_line_aborts_batch (C := list (list pyval)) []
           [(2, good_row)] [(4, good_row)] 3 short_row (lit "latitude")
           H1 H2 H3).
Defined.

(** C9. The list of reject samples never holds more than twenty
    entries, at the end of the run or after any number of rows, and it
    is the first twenty rows that validation rejects, in input order. *)
Theorem reject_samples_capped `{Cursor C} (cur : C)
    (rows : list (Z * gmap str pyval)) (st : loader_state C) :
  insert_rows cur rows = Ok st ->
  (length (rejected_samples st) <= 20)%nat /\
  rejected_samples st = take 20 (validation_rejects rows) /\
  sample_row <$> rejected_samples st `sublist_of` rows.*1 /\
  (forall rows1 rows2, rows = rows1 ++ rows2 ->
     exists st1,
       process_rows (LoaderState 0 0 [] cur) rows1 = Ok st1 /\
       (length (rejected_samples st1) <= 20)%nat).
Proof.
  intros Hrun.
  destruct (insert_rows_inv cur rows st Hrun) as (st0 & Hloop & _ & _ & ->).
  pose proof (process_rows_samples _ _ _ Hloop) as Hs. simpl in Hs.
  split; [|split; [|split]].
  - rewrite Hs, length_take. lia.
  - exact Hs.
  - rewrite Hs, fmap_take.
    etransitivity; [apply sublist_take | apply validation_rejects_in_order].
  - intros rows1 rows2 ->. rewrite process_rows_app in Hloop.
    destruct (process_rows _ rows1) as [st1|e] eqn:H1; [|discriminate].
    exists st1. split; [reflexivity|].
    pose proof (process_rows_samples _ _ _ H1) as Hs1. simpl in Hs1.
    rewrite Hs1, length_take. lia.
Qed.

Lemma reject_samples_capped_witness :
  exists st : loader_state (list (list pyval)),
    insert_rows [] many_bad_rows = Ok st /\
    (length (rejected_samples st) <= 20)%nat /\
    rejected_samples st = take 20 (validation_rejects many_bad_rows) /\
    sample_row <$> rejected_samples st `sublist_of` many_bad_rows.*1 /\
    (forall rows1 rows2, many_bad_rows = rows1 ++ rows2 ->
       exists st1 : loader_state (list (list pyval)),
         process_rows (LoaderState 0 0 [] []) rows1 = Ok st1 /\
         (length (rejected_samples st1) <= 20)%nat).
Proof.
  eexists. split; [vm_compute; reflexivity|].
  apply (reject_samples_capped (C := list (list pyval)) []).
  vm_compute. reflexivity.
Defined.

(** Twenty-five rows rejected, the first twenty of them sampled. *)
Example many_bad_rows_summary :
  match insert_rows (C := list (list pyval)) [] many_bad_rows with
  | Ok st =>
      rejected st = 25 /\
      sample_row <$> rejected_samples st = Z.of_nat <$> seq 2 20
  | Raise _ => False
  end.
Proof. vm_compute. split; reflexivity. Qed.

(** On a record with a [None] cell the validator raises, outside its
    own [try], and the run ends there. *)
Example short_row_raises :
  validate_and_convert_row 3 short_row =
    Raise (Exn AttributeError
             (lit "'NoneType' object has no attribute 'strip'")) /\
  insert_rows (C := list (list pyval)) [] [(2, good_row); (3, short_row)] =
    Raise (Exn AttributeError
             (lit "'NoneType' object has no attribute 'strip'")).
Proof. split; vm_compute; reflexivity. Qed.

(** * Further properties *)

(** ** Converters *)

(** X1. On a non-empty text the truncated-string converter returns the
    first fifty code points: a prefix of the text, of length the smaller
    of 50 and the length of the text, and the text itself when it is not
    longer than fifty. *)
Theorem truncate50_is_prefix (s : str) :
  s <> [] ->
  exists t,
    truncate50 (VStr s) = Ok (VStr t) /\
    t `prefix_of` s /\
    length t = Nat.min 50 (length s) /\
    ((length s <= 50)%nat -> t = s).
Proof.
  intros Hs. exists (take 50 s). unfold truncate50. cbn [truthy].
  rewrite bool_decide_eq_false_2 by exact Hs. cbn [negb].
  split; [reflexivity|]. split; [|split].
  - exists (drop 50 s). now rewrite take_drop.
  - apply length_take.
  - intros Hle. now apply take_ge.
Qed.

Lemma truncate50_is_prefix_witness :
  lit "Warszawa" <> [] /\
  exists t,
    truncate50 (VStr (lit "Warszawa")) = Ok (VStr t) /\
    t `prefix_of` lit "Warszawa" /\
    length t = Nat.min 50 (length (lit "Warszawa")) /\
    ((length (lit "Warszawa") <= 50)%nat -> t = lit "Warszawa").
Proof.
  split; [discriminate|].
  apply (truncate50_is_prefix (lit "Warszawa")). discriminate.
Defined.

Section PaddingFacts.

Lemma lstrip_app_space (pre s : str) :
  forallb is_space pre = true -> lstrip (pre ++ s) = lstrip s.
Proof.
  induction pre as [|c pre IH]; simpl; [reflexivity|].
  intros [Hc Hpre]%andb_true_iff. rewrite Hc. auto.
Qed.

Lemma lstrip_app (a b : str) :
  lstrip (a ++ b) = if bool_decide (lstrip a = []) then lstrip b
                    else lstrip a ++ b.
Proof.
  induction a as [|c a IH]; simpl; [reflexivity|].
  destruct (is_space c); [exact IH | reflexivity].
Qed.

Lemma forallb_rev {A} (f : A -> bool) (l : list A) :
  forallb f (rev l) = forallb f l.
Proof.
  induction l as [|x l IH]; simpl; [reflexivity|].
  rewrite forallb_app, IH. simpl. rewrite andb_true_r. apply andb_comm.
Qed.

Lemma rstrip_app_space (s post : str) :
  forallb is_space post = true -> rstrip (s ++ post) = rstrip s.
Proof.
  intros Hpost. unfold rstrip. rewrite rev_app_distr.
  rewrite lstrip_app_space; [reflexivity|]. now rewrite forallb_rev.
Qed.

Lemma rstrip_all_space (s : str) :
  forallb is_space s = true -> rstrip s = [].
Proof.
  intros Hs. unfold rstrip. rewrite lstrip_all_space; [reflexivity|].
  now rewrite forallb_rev.
Qed.

(** White space around a text does not change what [strip] returns. *)
Lemma strip_padding (pre s post : str) :
  forallb is_space pre = true -> forallb is_space post = true ->
  strip (pre ++ s ++ post) = strip s.
Proof.
  intros Hpre Hpost. unfold strip. rewrite (lstrip_app_space _ _ Hpre).
  rewrite lstrip_app. case_bool_decide as Hl.
  - rewrite Hl. rewrite (lstrip_all_space _ Hpost). reflexivity.
  - now apply rstrip_app_space.
Qed.

(** The numeric converters look at the trimmed text only. *)
Lemma numeric_converters_strip (s s' : str) :
  strip s = strip s' ->
  _parse_float (VStr s) = _parse_float (VStr s') /\
  _parse_int (VStr s) = _parse_int (VStr s') /\
  _parse_tinyint (VStr s) = _parse_tinyint (VStr s').
Proof.
  intros Heq.
  assert (Hnil : forall t : str,
            negb (truthy (VStr t)) || negb (isinstance_str (VStr t)) = true ->
            strip t = []).
  { intros [|c t]; [reflexivity | discriminate]. }
  unfold _parse_float, _parse_int, _parse_tinyint. cbn [str_of].
  destruct (negb (truthy (VStr s)) || _) eqn:Hs;
    destruct (negb (truthy (VStr s')) || _) eqn:Hs'; cbv zeta;
    try apply Hnil in Hs; try apply Hnil in Hs';
    rewrite <- ?Heq, ?Hs; rewrite ?Heq, ?Hs'; auto.
Qed.

End PaddingFacts.

(** X2. White space before and after a text does not change what the
    float, integer and bounded small-integer converters return. *)
Theorem numeric_converters_ignore_padding (pre s post : str) :
  forallb is_space pre = true -> forallb is_space post = true ->
  _parse_float (VStr (pre ++ s ++ post)) = _parse_float (VStr s) /\
  _parse_int (VStr (pre ++ s ++ post)) = _parse_int (VStr s) /\
  _parse_tinyint (VStr (pre ++ s ++ post)) = _parse_tinyint (VStr s).
Proof.
  intros Hpre Hpost. apply numeric_converters_strip.
  now apply strip_padding.
Qed.

Lemma numeric_converters_ignore_padding_witness :
  forallb is_space (lit "  ") = true /\
  forallb is_space [9; 160; 8195]%N = true /\
  _parse_float (VStr (lit "  " ++ lit "3,14" ++ [9; 160; 8195]%N)) =
    _parse_float (VStr (lit "3,14")).
Proof.
  split; [reflexivity|]. split; [reflexivity|].
  exact (proj1 (numeric_converters_ignore_padding
                  (lit "  ") (lit "3,14") [9; 160; 8195]%N
                  eq_refl eq_refl)).
Defined.

Section SeparatorFacts.

(** The number of periods in a text. *)
Let dots (s : str) : nat := count_occ N.eq_dec s 46%N.

Lemma dots_cons (c : N) (s : str) :
  dots (c :: s) = if (c =? 46)%N then S (dots s) else dots s.
Proof.
  unfold dots. simpl. destruct (N.eq_dec c 46%N) as [->|Hc]; [reflexivity|].
  now apply N.eqb_neq in Hc as ->.
Qed.

Lemma dots_map (f : N -> N) (s : str) :
  (forall c, (f c =? 46)%N = (c =? 46)%N) -> dots (List.map f s) = dots s.
Proof.
  intros Hf. induction s as [|c s IH]; [reflexivity|].
  cbn [List.map]. now rewrite !dots_cons, Hf, IH.
Qed.

Lemma dots_replace_comma (s : str) :
  dots (replace_comma s) = (count_occ N.eq_dec s 44%N + dots s)%nat.
Proof.
  induction s as [|c s IH]; [reflexivity|].
  unfold replace_comma in *. cbn [List.map]. rewrite !dots_cons, IH.
  simpl count_occ.
  destruct (N.eq_dec c 44%N) as [->|Hc]; [reflexivity|].
  apply N.eqb_neq in Hc as Hc'. rewrite Hc'.
  destruct (c =? 46)%N; lia.
Qed.

Lemma dots_lstrip (s : str) : dots (lstrip s) = dots s.
Proof.
  induction s as [|c s IH]; [reflexivity|]. simpl.
  destruct (is_space c) eqn:Hc; [|reflexivity].
  rewrite IH, dots_cons.
  destruct (N.eqb_spec c 46) as [->|]; [discriminate | reflexivity].
Qed.

Lemma dots_strip (s : str) : dots (strip s) = dots s.
Proof.
  unfold strip, rstrip, dots. rewrite count_occ_rev.
  fold (dots (lstrip (rev (lstrip s)))). rewrite dots_lstrip.
  unfold dots. rewrite count_occ_rev. apply dots_lstrip.
Qed.

Lemma dots_lstrip_ascii (s : str) : dots (lstrip_ascii s) = dots s.
Proof.
  induction s as [|c s IH]; [reflexivity|]. simpl.
  destruct (is_ascii_space c) eqn:Hc; [|reflexivity].
  rewrite IH, dots_cons.
  destruct (N.eqb_spec c 46) as [->|]; [discriminate | reflexivity].
Qed.

Lemma dots_strip_ascii (s : str) : dots (strip_ascii s) = dots s.
Proof.
  unfold strip_ascii, dots. rewrite count_occ_rev.
  fold (dots (lstrip_ascii (rev (lstrip_ascii s)))).
  rewrite dots_lstrip_ascii.
  unfold dots. rewrite count_occ_rev. apply dots_lstrip_ascii.
Qed.

Lemma to_decimal_lt (c d : N) : to_decimal c = Some d -> (d < 10)%N.
Proof.
  unfold to_decimal.
  destruct (List.find _ decimal_zeros) as [z|] eqn:Hz; [|discriminate].
  apply List.find_some in Hz as [_ Hz]. intros [= <-].
  apply andb_true_iff in Hz as [H1 H2].
  apply N.leb_le in H1. apply N.ltb_lt in H2. lia.
Qed.

Lemma to_ascii_period (c : N) : (to_ascii c =? 46)%N = (c =? 46)%N.
Proof.
  unfold to_ascii. destruct (N.ltb_spec c 128) as [Hlt|Hge]; [reflexivity|].
  assert (Hc : (c =? 46)%N = false) by (apply N.eqb_neq; lia).
  rewrite Hc. destruct (is_space c); [reflexivity|].
  destruct (to_decimal c) as [d|] eqn:Hd; [|reflexivity].
  apply to_decimal_lt in Hd. apply N.eqb_neq. lia.
Qed.

Lemma to_lower_period (c : N) : (to_lower c =? 46)%N = (c =? 46)%N.
Proof.
  unfold to_lower.
  destruct ((65 <=? c) && (c <=? 90))%N eqn:Hc; [|reflexivity].
  apply andb_true_iff in Hc as [H1 H2].
  apply N.leb_le in H1. apply N.leb_le in H2.
  transitivity false; [|symmetry]; apply N.eqb_neq; lia.
Qed.

Lemma dots_remove_underscores (s u : str) (prev : N) :
  remove_underscores prev s = Some u -> dots u = dots s.
Proof.
  revert prev u. induction s as [|c s IH]; intros prev u; simpl.
  - destruct (prev =? 95)%N; [discriminate|]. now intros [= <-].
  - destruct (N.eqb_spec c 95) as [->|Hc].
    + destruct (is_digit prev); [|discriminate]. intros Hu.
      rewrite dots_cons. simpl. exact (IH _ _ Hu).
    + destruct ((prev =? 95)%N && negb (is_digit c)); [discriminate|].
      destruct (remove_underscores c s) as [u'|] eqn:Hu; [|discriminate].
      simpl. intros [= <-]. rewrite !dots_cons, (IH _ _ Hu). reflexivity.
Qed.

Lemma dots_parse_sign (s : str) : dots (parse_sign s).2 = dots s.
Proof.
  destruct s as [|c s]; [reflexivity|]. unfold parse_sign.
  destruct (N.eq_dec c 45%N) as [->|H45]; [reflexivity|].
  destruct (N.eq_dec c 43%N) as [->|H43]; [reflexivity|].
  destruct c as [|p]; [reflexivity|].
  repeat (destruct p as [p|p|]; try reflexivity).
Qed.

Lemma dots_span_digits (s : str) : dots (span_digits s).2 = dots s.
Proof.
  induction s as [|c s IH]; [reflexivity|]. simpl.
  destruct (is_digit c) eqn:Hc; [|reflexivity].
  destruct (span_digits s) as [ds r]. simpl in *. rewrite IH, dots_cons.
  destruct (N.eqb_spec c 46) as [->|]; [discriminate | reflexivity].
Qed.

Lemma span_digits_all (s : str) :
  (span_digits s).2 = [] -> dots s = 0%nat.
Proof.
  intros H. rewrite <- dots_span_digits, H. reflexivity.
Qed.

Lemma dots_parse_exponent (s : str) (e : Z) :
  parse_exponent s = Some e -> dots s = 0%nat.
Proof.
  destruct s as [|c s]; [reflexivity|]. unfold parse_exponent.
  destruct ((c =? 101) || (c =? 69))%N eqn:Hc; [|discriminate].
  pose proof (dots_parse_sign s) as Hsign.
  destruct (parse_sign s) as [neg r1]. simpl in Hsign.
  pose proof (span_digits_all r1) as Hall.
  destruct (span_digits r1) as [[|d ds] [|x r2]]; try discriminate.
  intros _. rewrite dots_cons, <- Hsign, (Hall eq_refl).
  destruct (N.eqb_spec c 46) as [->|]; [discriminate | reflexivity].
Qed.

Lemma dots_parse_decimal (neg : bool) (s : str) (f : float) :
  parse_decimal neg s = Some f -> (dots s <= 1)%nat.
Proof.
  unfold parse_decimal. pose proof (dots_span_digits s) as H1.
  destruct (span_digits s) as [ip r1]. simpl in H1. rewrite <- H1.
  destruct r1 as [|c r].
  - intros _. unfold dots. simpl. lia.
  - destruct (N.eq_dec c 46%N) as [->|Hc].
    + pose proof (dots_span_digits r) as H2.
      destruct (span_digits r) as [fp r2]. simpl in H2.
      destruct (ip ++ fp); [discriminate|].
      destruct (parse_exponent r2) as [e|] eqn:He; [|discriminate].
      intros _. rewrite dots_cons. simpl.
      rewrite <- H2, (dots_parse_exponent _ _ He). lia.
    + assert (Hother :
        (let '(fp, r2) := ([], c :: r) : list N * str in
         match ip ++ fp with
         | [] => None
         | n :: l =>
             match parse_exponent r2 with
             | Some e =>
                 Some (round_decimal neg (digits_value (n :: l))
                         (e - Z.of_nat (length fp)))
             | None => None
             end
         end) = Some f -> (dots (c :: r) <= 1)%nat).
      { cbv beta iota zeta. destruct (ip ++ []); [discriminate|].
        destruct (parse_exponent _) as [e|] eqn:He; [|discriminate].
        intros _. rewrite (dots_parse_exponent _ _ He). lia. }
      destruct c as [|p]; [exact Hother|].
      repeat (destruct p as [p|p|]; try exact Hother).
      now destruct Hc.
Qed.

Lemma dots_parse_inf_or_nan (neg : bool) (s : str) (f : float) :
  parse_inf_or_nan neg s = Some f -> dots s = 0%nat.
Proof.
  unfold parse_inf_or_nan.
  rewrite <- (dots_map to_lower s to_lower_period).
  repeat case_bool_decide; cbn [orb]; try discriminate;
    match goal with H : List.map to_lower s = _ |- _ => rewrite H end;
    reflexivity.
Qed.

(** A text that [float] accepts holds at most one period. *)
Lemma py_float_dots (s : str) (f : float) :
  py_float s = Ok f -> (dots s <= 1)%nat.
Proof.
  unfold py_float.
  rewrite <- (dots_map to_ascii s to_ascii_period), <- dots_strip_ascii.
  destruct (remove_underscores 0 _) as [t|] eqn:Ht; [|discriminate].
  rewrite <- (dots_remove_underscores _ _ _ Ht).
  pose proof (dots_parse_sign t) as Hsign.
  destruct (parse_sign t) as [neg u]. simpl in Hsign. rewrite <- Hsign.
  destruct (parse_decimal neg u) as [f'|] eqn:Hd.
  - intros _. exact (dots_parse_decimal _ _ _ Hd).
  - destruct (parse_inf_or_nan neg u) as [f'|] eqn:Hi; [|discriminate].
    intros _. rewrite (dots_parse_inf_or_nan _ _ _ Hi). lia.
Qed.

Lemma py_float_two_separators (s : str) :
  (2 <= count_occ N.eq_dec s 44%N + count_occ N.eq_dec s 46%N)%nat ->
  exists e, py_float (replace_comma (strip s)) = Raise e.
Proof.
  intros Hs. destruct (py_float _) as [f|e] eqn:Hf; [|eauto].
  apply py_float_dots in Hf. rewrite dots_replace_comma in Hf.
  fold (dots (strip s)) in Hf. rewrite dots_strip in Hf.
  assert (Hc : count_occ N.eq_dec (strip s) 44%N =
               count_occ N.eq_dec s 44%N).
  { unfold strip, rstrip. rewrite count_occ_rev.
    assert (Hl : forall t : str,
              count_occ N.eq_dec (lstrip t) 44%N = count_occ N.eq_dec t 44%N).
    { induction t as [|c t IH]; [reflexivity|]. simpl.
      destruct (is_space c) eqn:Hsp; [|reflexivity]. rewrite IH.
      destruct (N.eq_dec c 44%N) as [->|]; [discriminate | reflexivity]. }
    rewrite Hl, count_occ_rev. apply Hl. }
  rewrite Hc in Hf. unfold dots in Hf. lia.
Qed.

End SeparatorFacts.

(** X3. A text with two or more decimal separators, commas or periods
    in any mix, as in ["1,234.56"] or ["1.234,56"], is not a number for
    the importer: the float, integer and bounded small-integer
    converters all return no value. *)
Theorem two_separators_give_no_value (s : str) :
  (2 <= count_occ N.eq_dec s 44%N + count_occ N.eq_dec s 46%N)%nat ->
  _parse_float (VStr s) = Ok VNone /\
  _parse_int (VStr s) = Ok VNone /\
  _parse_tinyint (VStr s) = Ok VNone.
Proof.
  intros Hs. destruct (py_float_two_separators s Hs) as [e He].
  pose proof (py_float_raises_value_error _ _ He) as Hcls.
  unfold _parse_float, _parse_int, _parse_tinyint. cbn [str_of].
  destruct (negb (truthy (VStr s)) || _); [auto|]. cbv zeta.
  destruct (negb (truthy (VStr (strip s)))); [auto|].
  rewrite He. simpl. rewrite Hcls. auto.
Qed.

Lemma two_separators_give_no_value_witness :
  (2 <= count_occ N.eq_dec (lit "1,234.56") 44%N +
        count_occ N.eq_dec (lit "1,234.56") 46%N)%nat /\
  _parse_float (VStr (lit "1,234.56")) = Ok VNone.
Proof.
  assert (H : (2 <= count_occ N.eq_dec (lit "1,234.56") 44%N +
                    count_occ N.eq_dec (lit "1,234.56") 46%N)%nat)
    by (vm_compute; lia).
  split; [exact H|].
  exact (proj1 (two_separators_give_no_value (lit "1,234.56") H)).
Defined.

(** ** Row validator *)

Section TypedRecordFacts.

Lemma parse_float_result (v val : pyval) :
  _parse_float v = Ok val -> val = VNone \/ exists f, val = VFloat f.
Proof.
  unfold _parse_float.
  destruct (negb (truthy v) || _); [intros [= <-]; auto|]. cbv zeta.
  destruct (negb (truthy _)); [intros [= <-]; auto|].
  destruct (py_float _) as [f|e]; simpl.
  - intros [= <-]. eauto.
  - destruct (exn_cls e); intros [= <-]; auto.
Qed.

Lemma parse_int_result (v val : pyval) :
  _parse_int v = Ok val -> val = VNone \/ exists n, val = VInt n.
Proof.
  unfold _parse_int.
  destruct (negb (truthy v) || _); [intros [= <-]; auto|]. cbv zeta.
  destruct (negb (truthy _)); [intros [= <-]; auto|].
  destruct (py_float _) as [f|e]; simpl.
  - destruct (py_int f) as [n|e]; simpl.
    + intros [= <-]. eauto.
    + destruct (exn_cls e); intros [= <-]; auto.
  - destruct (exn_cls e); intros [= <-]; auto.
Qed.

Lemma parse_tinyint_result (v val : pyval) :
  _parse_tinyint v = Ok val ->
  val = VNone \/ exists n, val = VInt n /\ 0 <= n <= 255.
Proof.
  unfold _parse_tinyint.
  destruct (negb (truthy v) || _); [intros [= <-]; auto|]. cbv zeta.
  destruct (negb (truthy _)); [intros [= <-]; auto|].
  destruct (py_float _) as [f|e]; simpl.
  - destruct (py_int f) as [n|e]; simpl.
    + destruct (Z.leb_spec 0 n); destruct (Z.leb_spec n 255); simpl;
        intros [= <-]; auto.
      right. exists n. split; [reflexivity | lia].
    + destruct (exn_cls e); intros [= <-]; auto.
  - destruct (exn_cls e); intros [= <-]; auto.
Qed.

Lemma truncate50_result (raw : str) (val : pyval) :
  truncate50 (VStr raw) = Ok val ->
  val = VNone \/ exists s, val = VStr s /\ (0 < length s <= 50)%nat.
Proof.
  unfold truncate50. cbn [truthy]. case_bool_decide as Hraw; cbn [negb].
  - intros [= <-]. auto.
  - intros [= <-]. right. exists (take 50 raw). split; [reflexivity|].
    rewrite length_take. destruct raw; [now destruct Hraw|].
    cbn [length]. lia.
Qed.

Lemma schema_converters_typed :
  Forall (fun cd : str * column_def =>
            forall raw val, converter cd.2 (VStr raw) = Ok val ->
                            fits_sql_type (sql_type cd.2) val)
         COLUMN_DEFS.
Proof.
  assert (Hf : forall raw val, _parse_float (VStr raw) = Ok val ->
                 fits_sql_type (lit "float") val).
  { intros raw val [->|[f ->]]%parse_float_result; simpl; auto. }
  assert (Hi : forall t raw val,
                 t = lit "int" \/ t = lit "smallint" ->
                 _parse_int (VStr raw) = Ok val -> fits_sql_type t val).
  { intros t raw val Ht [->|[n ->]]%parse_int_result; simpl; tauto. }
  assert (Ht : forall raw val, _parse_tinyint (VStr raw) = Ok val ->
                 fits_sql_type (lit "tinyint") val).
  { intros raw val [->|(n & -> & Hn)]%parse_tinyint_result; simpl; auto. }
  assert (Hs : forall raw val, truncate50 (VStr raw) = Ok val ->
                 fits_sql_type (lit "nvarchar(50)") val).
  { intros raw val [->|(s & -> & Hn)]%truncate50_result; simpl; auto. }
  unfold COLUMN_DEFS.
  repeat (constructor; [cbn [snd sql_type converter]; eauto|]).
  constructor.
Qed.

End TypedRecordFacts.

(** X4. Every column of a converted row holds what its SQL type takes:
    a float column a float or null, a tinyint column an integer from 0
    to 255 or null, an int or smallint column an integer or null, an
    nvarchar(50) column a non-empty string of at most fifty code points
    or null. *)
Theorem converted_row_is_typed (row_num : Z) (row : gmap str pyval)
    (v : validation) :
  validate_and_convert_row row_num row = Ok v ->
  forall col def, (col, def) ∈ COLUMN_DEFS ->
    exists val,
      v_converted v !! col = Some val /\ fits_sql_type (sql_type def) val.
Proof.
  intros Hv col def Hin.
  destruct (validate_and_convert_row_spec row row_num v Hv)
    as (_ & _ & Hstore & _).
  destruct (Hstore _ Hin) as [Hc _]. cbn [fst] in Hc.
  exists (converted_value row (col, def)). split; [exact Hc|].
  pose proof schema_converters_typed as Hall.
  rewrite Forall_forall in Hall. specialize (Hall _ Hin).
  cbn [snd] in Hall. unfold converted_value. cbn [fst snd].
  destruct (converter def _) as [val|e] eqn:Hconv; [eauto | exact I].
Qed.

Lemma converted_row_is_typed_witness :
  validate_and_convert_row 2 good_row = Ok (validation_of 2 good_row) /\
  forall col def, (col, def) ∈ COLUMN_DEFS ->
    exists val,
      v_converted (validation_of 2 good_row) !! col = Some val /\
      fits_sql_type (sql_type def) val.
Proof.
  assert (Hv : validate_and_convert_row 2 good_row =
               Ok (validation_of 2 good_row)) by (vm_compute; reflexivity).
  split; [exact Hv|].
  exact (converted_row_is_typed 2 good_row _ Hv).
Defined.

(** X5. The validator reads the columns of the schema and nothing
    else: two records that agree on those columns are validated alike,
    whatever other columns they hold and whatever their row numbers. *)
Theorem validation_ignores_other_columns (row_num row_num' : Z)
    (row row' : gmap str pyval) :
  (forall col, col ∈ COLUMN_DEFS.*1 -> row !! col = row' !! col) ->
  validate_and_convert_row row_num row =
  validate_and_convert_row row_num' row'.
Proof.
  intros Hagree. unfold validate_and_convert_row.
  assert (Hcols : forall cols st,
            (forall col, col ∈ cols.*1 -> row !! col = row' !! col) ->
            validate_columns row st cols = validate_columns row' st cols).
  { induction cols as [|[col def] cols IH]; intros st Hcols;
      [reflexivity|].
    cbn [validate_columns]. unfold validate_column, get_raw_value.
    rewrite <- (Hcols col) by (simpl; apply list_elem_of_here).
    destruct (row !! col) as [[]|]; cbn [mbind result_bind];
      try reflexivity;
      (destruct (converter def _); simpl; apply IH; intros c Hc;
       apply Hcols; simpl; now apply list_elem_of_further). }
  now rewrite (Hcols COLUMN_DEFS _ Hagree).
Qed.

Lemma validation_ignores_other_columns_witness :
  (forall col, col ∈ COLUMN_DEFS.*1 ->
     good_row !! col = <[lit "note" := VStr (lit "n/a")]> good_row !! col) /\
  validate_and_convert_row 2 good_row =
  validate_and_convert_row 7 (<[lit "note" := VStr (lit "n/a")]> good_row).
Proof.
  assert (H : forall col, col ∈ COLUMN_DEFS.*1 ->
            good_row !! col =
            <[lit "note" := VStr (lit "n/a")]> good_row !! col).
  { intros col Hcol. rewrite lookup_insert_ne; [reflexivity|].
    intros <-. revert Hcol.
    apply (bool_decide_unpack (lit "note" ∉ COLUMN_DEFS.*1)).
    vm_compute. exact I. }
  split; [exact H|].
  exact (validation_ignores_other_columns 2 7 good_row _ H).
Defined.

(** X6. A required field whose cell is missing, empty or blank makes
    the row invalid: the field is stored as null and the error text
    holds the "Missing or invalid" line of that field, whatever the
    other cells hold. *)
Theorem missing_required_field_rejects (row_num : Z)
    (row : gmap str pyval) (v : validation) (col : str) :
  validate_and_convert_row row_num row = Ok v ->
  col ∈ REQUIRED_FIELDS ->
  cell_text row col = [] ->
  is_valid v = false /\
  v_converted v !! col = Some VNone /\
  exists es, error_msg v = Some (join newline es) /\
             missing_message col [] ∈ es.
Proof.
  intros Hv Hreq Hblank.
  destruct (validate_and_convert_row_spec row row_num v Hv)
    as (Hvalid & Hmsg & Hstore & _).
  destruct (required_fields_in_schema col Hreq) as [def Hin].
  assert (Hnone : converter def (VStr []) = Ok VNone).
  { assert (Hall : Forall (fun cd : str * column_def =>
                             converter cd.2 (VStr []) = Ok VNone)
                     COLUMN_DEFS) by (repeat constructor).
    rewrite Forall_forall in Hall. exact (Hall _ Hin). }
  assert (Hel : missing_message col [] ∈
                flat_map (column_errors row) COLUMN_DEFS).
  { apply list_elem_of_In, in_flat_map. exists (col, def).
    split; [now apply list_elem_of_In|].
    unfold column_errors. cbn [fst snd]. rewrite Hblank, Hnone.
    rewrite bool_decide_eq_true_2 by exact Hreq. now left. }
  destruct (flat_map (column_errors row) COLUMN_DEFS) as [|m ms] eqn:Hes.
  { by apply elem_of_nil in Hel. }
  split; [|split].
  - rewrite Hvalid. now apply bool_decide_eq_false_2.
  - destruct (Hstore _ Hin) as [Hc _]. cbn [fst] in Hc. rewrite Hc.
    unfold converted_value. cbn [fst snd]. now rewrite Hblank, Hnone.
  - exists (m :: ms). split; [exact Hmsg | exact Hel].
Qed.

Lemma missing_required_field_rejects_witness :
  validate_and_convert_row 3 empty_price_row =
    Ok (validation_of 3 empty_price_row) /\
  lit "price" ∈ REQUIRED_FIELDS /\
  cell_text empty_price_row (lit "price") = [] /\
  is_valid (validation_of 3 empty_price_row) = false /\
  v_converted (validation_of 3 empty_price_row) !! lit "price" =
    Some VNone /\
  exists es,
    error_msg (validation_of 3 empty_price_row) = Some (join newline es) /\
    missing_message (lit "price") [] ∈ es.
Proof.
  assert (Hv : validate_and_convert_row 3 empty_price_row =
               Ok (validation_of 3 empty_price_row))
    by (vm_compute; reflexivity).
  assert (Hreq : lit "price" ∈ REQUIRED_FIELDS) by apply list_elem_of_here.
  assert (Hblank : cell_text empty_price_row (lit "price") = [])
    by (vm_compute; reflexivity).
  split; [exact Hv|]. split; [exact Hreq|]. split; [exact Hblank|].
  exact (missing_required_field_rejects 3 empty_price_row _ (lit "price")
           Hv Hreq Hblank).
Defined.

(** ** Batch loader *)

Section SinkFacts.

Context `{Cursor C}.

Implicit Types (st : loader_state C) (rows : list (Z * gmap str pyval)).

(** What one row does to the cursor and to the counters, in terms of
    the tuple validation lets through. *)
Lemma process_row_sink st st' (r : Z * gmap str pyval) :
  process_row st r = Ok st' ->
  cursor st' =
    foldl (fun c values => (execute c values).1) (cursor st)
      (accepted_tuple r) /\
  rejected st + Z.of_nat (length (rejected_sample r)) <= rejected st' /\
  inserted st' <= inserted st + Z.of_nat (length (accepted_tuple r)) /\
  ((forall c values, (execute c values).2 = None) ->
   rejected st' = rejected st + Z.of_nat (length (rejected_sample r)) /\
   inserted st' = inserted st + Z.of_nat (length (accepted_tuple r))).
Proof.
  destruct r as [row_num row].
  unfold process_row, accepted_tuple, rejected_sample. cbn [fst snd].
  destruct (validate_and_convert_row row_num row) as [v|e]; [|discriminate].
  cbn [mbind result_bind].
  destruct (is_valid v); cbn [negb].
  - destruct (insert_values _ _) as [values|e]; [|discriminate].
    cbn [mbind result_bind foldl length].
    destruct (execute (cursor st) values) as [c [e|]] eqn:Hex;
      intros [= <-]; cbn [cursor rejected inserted fst];
      (split; [reflexivity|]); (split; [lia|]); (split; [lia|]);
      intros Hok; specialize (Hok (cursor st) values);
      rewrite Hex in Hok; [discriminate | lia].
  - intros [= <-]. unfold reject_invalid.
    cbn [cursor rejected inserted foldl length]. repeat split; lia.
Qed.

Lemma process_rows_sink st st' rows :
  process_rows st rows = Ok st' ->
  cursor st' =
    foldl (fun c values => (execute c values).1) (cursor st)
      (accepted_tuples rows) /\
  rejected st + Z.of_nat (length (validation_rejects rows)) <= rejected st' /\
  inserted st' <= inserted st + Z.of_nat (length (accepted_tuples rows)) /\
  ((forall c values, (execute c values).2 = None) ->
   rejected st' =
     rejected st + Z.of_nat (length (validation_rejects rows)) /\
   inserted st' = inserted st + Z.of_nat (length (accepted_tuples rows))).
Proof.
  revert st. induction rows as [|r rows IH]; intros st.
  - intros [= <-]. simpl. repeat split; lia.
  - cbn [process_rows].
    destruct (process_row st r) as [st1|e] eqn:H1; [|discriminate].
    cbn [mbind result_bind]. intros H2.
    destruct (process_row_sink _ _ _ H1) as (Hc1 & Hr1 & Hi1 & Hok1).
    destruct (IH _ H2) as (Hc2 & Hr2 & Hi2 & Hok2).
    unfold accepted_tuples, validation_rejects in *. cbn [flat_map].
    rewrite !length_app, foldl_app, <- Hc1.
    split; [exact Hc2|]. split; [lia|]. split; [lia|].
    intros Hok. specialize (Hok1 Hok). specialize (Hok2 Hok). lia.
Qed.

Lemma insert_values_length (converted : gmap str pyval) (keys : list str)
    (values : list pyval) :
  insert_values converted keys = Ok values -> length values = length keys.
Proof.
  revert values. induction keys as [|key keys IH]; intros values; simpl.
  - now intros [= <-].
  - destruct (subscript converted key) as [x|]; [|discriminate].
    cbn [mbind result_bind].
    destruct (insert_values converted keys) as [vs|]; [|discriminate].
    cbn [mbind result_bind]. intros [= <-]. simpl. now rewrite (IH vs).
Qed.

End SinkFacts.

(** X7. The cursor sees exactly the rows validation accepts: after a
    run it is the cursor reached by executing the tuple of every
    accepted row, in input order, and committing; a rejected row never
    reaches it and a failed insert does not keep later rows from it.
    Every tuple holds fifteen values. *)
Theorem sink_receives_accepted_rows_in_order `{Cursor C} (cur : C)
    (rows : list (Z * gmap str pyval)) (st : loader_state C) :
  insert_rows cur rows = Ok st ->
  cursor st =
    (commit (foldl (fun c values => (execute c values).1) cur
               (accepted_tuples rows))).1 /\
  Forall (fun values => length values = 15%nat) (accepted_tuples rows).
Proof.
  intros Hrun. split.
  - unfold insert_rows in Hrun.
    destruct (process_rows _ rows) as [st0|e] eqn:Hloop; [|discriminate].
    cbn [mbind result_bind] in Hrun.
    destruct (process_rows_sink _ _ _ Hloop) as (Hc & _).
    cbn [cursor] in Hc. rewrite <- Hc.
    destruct (commit (cursor st0)) as [c [e|]]; [discriminate|].
    injection Hrun as <-. reflexivity.
  - apply Forall_forall. intros values Hin.
    apply list_elem_of_In, in_flat_map in Hin as (r & _ & Hin).
    unfold accepted_tuple in Hin.
    destruct (validate_and_convert_row _ _) as [v|]; [|destruct Hin].
    destruct (is_valid v); [|destruct Hin].
    destruct (insert_values _ _) as [vs|] eqn:Hvs; [|destruct Hin].
    destruct Hin as [<-|[]].
    exact (insert_values_length _ _ _ Hvs).
Qed.

Lemma sink_receives_accepted_rows_in_order_witness :
  insert_rows (Session [] [] 0) three_rows =
    Ok (loaded (Session [] [] 0) three_rows) /\
  cursor (loaded (Session [] [] 0) three_rows) =
    (commit (foldl (fun c values => (execute c values).1)
               (Session [] [] 0) (accepted_tuples three_rows))).1 /\
  Forall (fun values => length values = 15%nat)
    (accepted_tuples three_rows).
Proof.
  assert (Hrun : insert_rows (Session [] [] 0) three_rows =
                 Ok (loaded (Session [] [] 0) three_rows))
    by (vm_compute; reflexivity).
  split; [exact Hrun|].
  exact (sink_receives_accepted_rows_in_order _ _ _ Hrun).
Defined.

(** X8. Every row that validation rejects is counted as rejected and
    no more rows are counted as inserted than validation accepts; when
    the cursor never fails, the inserted count is the number of
    accepted rows and the rejected count the number of rows validation
    rejects. *)
Theorem counts_follow_validation `{Cursor C} (cur : C)
    (rows : list (Z * gmap str pyval)) (st : loader_state C) :
  insert_rows cur rows = Ok st ->
  Z.of_nat (length (validation_rejects rows)) <= rejected st /\
  inserted st <= Z.of_nat (length (accepted_tuples rows)) /\
  ((forall c values, (execute c values).2 = None) ->
   rejected st = Z.of_nat (length (validation_rejects rows)) /\
   inserted st = Z.of_nat (length (accepted_tuples rows))).
Proof.
  intros Hrun.
  destruct (insert_rows_inv cur rows st Hrun) as (st0 & Hloop & -> & -> & _).
  destruct (process_rows_sink _ _ _ Hloop) as (_ & Hr & Hi & Hok).
  cbn [rejected inserted] in *. split; [lia|]. split; [lia|].
  intros Hnofail. specialize (Hok Hnofail). lia.
Qed.

Lemma counts_follow_validation_witness :
  insert_rows (Session [] [] 0) three_rows =
    Ok (loaded (Session [] [] 0) three_rows) /\
  (forall c values, (execute (C := session) c values).2 = None) /\
  rejected (loaded (Session [] [] 0) three_rows) =
    Z.of_nat (length (validation_rejects three_rows)) /\
  inserted (loaded (Session [] [] 0) three_rows) =
    Z.of_nat (length (accepted_tuples three_rows)).
Proof.
  assert (Hrun : insert_rows (Session [] [] 0) three_rows =
                 Ok (loaded (Session [] [] 0) three_rows))
    by (vm_compute; reflexivity).
  assert (Hsink : forall c values,
            (execute (C := session) c values).2 = None)
    by (intros c values; reflexivity).
  split; [exact Hrun|]. split; [exact Hsink|].
  exact (proj2 (proj2 (counts_follow_validation _ _ _ Hrun)) Hsink).
Defined.

(** ** Reading the file and reporting *)

Section EnumerateFacts.

Context {A : Type}.

Lemma enumerate_fmap (start : Z) (l : list A) :
  (enumerate start l).*2 = l /\
  (enumerate start l).*1 = (fun i => start + Z.of_nat i) <$> seq 0 (length l).
Proof.
  revert start. induction l as [|x l IH]; intros start; [done|].
  cbn [enumerate length seq]. rewrite !fmap_cons.
  destruct (IH (start + 1)) as [-> ->]. split; [reflexivity|].
  cbn [fst]. f_equal; [lia|].
  rewrite <- seq_shift. rewrite <- list_fmap_compose.
  apply list_fmap_ext. intros i j _. simpl. lia.
Qed.

Lemma enumerate_elem (start n : Z) (x : A) (l : list A) :
  (n, x) ∈ enumerate start l ->
  start <= n /\ l !! Z.to_nat (n - start) = Some x.
Proof.
  revert start. induction l as [|y l IH]; intros start; cbn [enumerate].
  - intros Hin. by apply elem_of_nil in Hin.
  - intros [[= -> ->]|Hin]%elem_of_cons.
    + split; [lia|]. now rewrite Z.sub_diag.
    + destruct (IH _ Hin) as [Hle Hl]. split; [lia|].
      replace (Z.to_nat (n - start)) with (S (Z.to_nat (n - (start + 1))))
        by lia.
      exact Hl.
Qed.

End EnumerateFacts.

(** The samples a finished run holds. *)
Lemma reject_samples_capped_aux `{Cursor C} (cur : C)
    (rows : list (Z * gmap str pyval)) (st : loader_state C) :
  insert_rows cur rows = Ok st ->
  (length (rejected_samples st) <= 20)%nat /\
  rejected_samples st = take 20 (validation_rejects rows).
Proof.
  intros Hrun.
  destruct (insert_rows_inv cur rows st Hrun) as (st0 & Hloop & _ & _ & ->).
  pose proof (process_rows_samples _ _ _ Hloop) as Hs. simpl in Hs.
  split; [rewrite Hs, length_take; lia | exact Hs].
Qed.

(** X9. [read_csv] keeps the records in file order and numbers them 2,
    3, 4, ...: the first record is row 2, the header being line 1. *)
Theorem read_csv_numbers_rows (filepath : str)
    (records : list (gmap str pyval)) (rows : list (Z * gmap str pyval)) :
  read_csv filepath (Contents records) = Finished rows ->
  rows.*2 = records /\
  rows.*1 = (fun i => 2 + Z.of_nat i) <$> seq 0 (length records) /\
  length rows = length records.
Proof.
  intros [= <-]. destruct (enumerate_fmap 2 records) as [H2 H1].
  split; [exact H2|]. split; [exact H1|].
  rewrite <- H2 at 2. now rewrite length_fmap.
Qed.

Lemma read_csv_numbers_rows_witness :
  read_csv (lit "olx.csv") (Contents [good_row; empty_price_row]) =
    Finished [(2, good_row); (3, empty_price_row)] /\
  [(2, good_row); (3, empty_price_row)].*1 =
    (fun i => 2 + Z.of_nat i) <$> seq 0 2.
Proof.
  assert (H : read_csv (lit "olx.csv") (Contents [good_row; empty_price_row])
              = Finished [(2, good_row); (3, empty_price_row)])
    by reflexivity.
  split; [exact H|].
  exact (proj1 (proj2 (read_csv_numbers_rows _ _ _ H))).
Defined.

(** X10. After reading and loading a file, the row number of every
    reject sample points back at the record it was taken from: the
    record at position [row - 2] of the file is invalid and validating
    it gives the errors and raw values of the sample. *)
Theorem sample_row_points_at_record `{Cursor C} (cur : C) (filepath : str)
    (records : list (gmap str pyval)) (rows : list (Z * gmap str pyval))
    (st : loader_state C) :
  read_csv filepath (Contents records) = Finished rows ->
  insert_rows cur rows = Ok st ->
  forall s, s ∈ rejected_samples st ->
    exists row v,
      2 <= sample_row s /\
      records !! Z.to_nat (sample_row s - 2) = Some row /\
      validate_and_convert_row (sample_row s) row = Ok v /\
      is_valid v = false /\
      sample_errors s = error_msg v /\
      sample_raw_values s = v_raw_values v.
Proof.
  intros [= <-] Hrun s Hs.
  destruct (reject_samples_capped_aux cur _ st Hrun) as [_ Hsamples].
  rewrite Hsamples in Hs. apply subseteq_take in Hs.
  apply list_elem_of_In, in_flat_map in Hs as ([n row] & Hr & Hs).
  apply list_elem_of_In, enumerate_elem in Hr as [Hle Hrow].
  unfold rejected_sample in Hs. cbn [fst snd] in Hs.
  destruct (validate_and_convert_row n row) as [v|] eqn:Hv; [|destruct Hs].
  destruct (is_valid v) eqn:Hvalid; [destruct Hs|].
  destruct Hs as [<-|[]]. exists row, v.
  cbn [sample_row sample_errors sample_raw_values]. repeat split; assumption.
Qed.

Lemma sample_row_points_at_record_witness :
  read_csv (lit "olx.csv")
    (Contents [good_row; empty_price_row; too_many_rooms_row]) =
    Finished three_rows /\
  insert_rows (Session [] [] 0) three_rows =
    Ok (loaded (Session [] [] 0) three_rows) /\
  forall s, s ∈ rejected_samples (loaded (Session [] [] 0) three_rows) ->
    exists row v,
      2 <= sample_row s /\
      [good_row; empty_price_row; too_many_rooms_row]
        !! Z.to_nat (sample_row s - 2) = Some row /\
      validate_and_convert_row (sample_row s) row = Ok v /\
      is_valid v = false /\
      sample_errors s = error_msg v /\
      sample_raw_values s = v_raw_values v.
Proof.
  assert (Hread : read_csv (lit "olx.csv")
                    (Contents [good_row; empty_price_row; too_many_rooms_row])
                  = Finished three_rows) by reflexivity.
  assert (Hrun : insert_rows (Session [] [] 0) three_rows =
                 Ok (loaded (Session [] [] 0) three_rows))
    by (vm_compute; reflexivity).
  split; [exact Hread|]. split; [exact Hrun|].
  exact (sample_row_points_at_record _ _ _ _ _ Hread Hrun).
Defined.

(** X11. The report of a rejected row shows, for each of the eleven
    required fields in their order, the trimmed text of the cell; no
    shown value is longer than 103 code points, and a non-empty value
    of at most 100 code points is shown as it is. *)
Theorem report_shows_trimmed_values (row_num : Z) (row : gmap str pyval)
    (v : validation) :
  validate_and_convert_row row_num row = Ok v ->
  raw_value_lines (Sample row_num (error_msg v) (v_raw_values v)) =
    (fun field =>
       lit "    " ++ field ++ lit ": " ++ display_raw (cell_text row field))
    <$> REQUIRED_FIELDS /\
  length (raw_value_lines (Sample row_num (error_msg v) (v_raw_values v)))
    = 11%nat /\
  (forall raw : str,
     (length (display_raw raw) <= 103)%nat /\
     ((0 < length raw <= 100)%nat -> display_raw raw = raw)).
Proof.
  intros Hv.
  destruct (validate_and_convert_row_spec row row_num v Hv)
    as (_ & _ & Hstore & _).
  split; [|split].
  - unfold raw_value_lines. cbn [sample_raw_values].
    apply list_fmap_ext. intros i field Hfield.
    apply list_elem_of_lookup_2 in Hfield.
    destruct (required_fields_in_schema _ Hfield) as [def Hin].
    destruct (Hstore _ Hin) as [_ Hr]. cbn [fst] in Hr.
    exact (f_equal
             (fun x => lit "    " ++ field ++ lit ": " ++
                       display_raw (default [] x)) Hr).
  - unfold raw_value_lines. now rewrite length_fmap.
  - intros raw. unfold display_raw. cbn [truthy].
    case_bool_decide as Hraw; cbn [negb].
    + subst raw. split; [vm_compute; lia | cbn [length]; lia].
    + destruct (Z.ltb_spec 100 (Z.of_nat (length raw))) as [Hlong|Hshort].
      * split; [|lia]. rewrite length_app, length_take.
        change (length (lit "...")) with 3%nat. lia.
      * split; [lia | reflexivity].
Qed.

Lemma report_shows_trimmed_values_witness :
  validate_and_convert_row 3 empty_price_row =
    Ok (validation_of 3 empty_price_row) /\
  length (raw_value_lines
            (Sample 3 (error_msg (validation_of 3 empty_price_row))
               (v_raw_values (validation_of 3 empty_price_row))))
    = 11%nat.
Proof.
  assert (Hv : validate_and_convert_row 3 empty_price_row =
               Ok (validation_of 3 empty_price_row))
    by (vm_compute; reflexivity).
  split; [exact Hv|].
  exact (proj1 (proj2 (report_shows_trimmed_values 3 empty_price_row _ Hv))).
Defined.

(** The first lines of the report of the row without a price. *)
Example empty_price_report :
  take 2 (raw_value_lines
            (Sample 3 (error_msg (validation_of 3 empty_price_row))
               (v_raw_values (validation_of 3 empty_price_row)))) =
  [lit "    price: [EMPTY]"; lit "    price_per_meter: 7000.01"].
Proof. vm_compute. reflexivity. Qed.

(** ** Running a script *)

Section SplitFacts.

Lemma match_spaces_line_end_spec (s : str) (k : nat) :
  match_spaces_line_end s = Some k ->
  (k <= length s)%nat /\ forallb is_space (take k s) = true.
Proof.
  revert k. induction s as [|c r IH]; intros k; cbn [match_spaces_line_end].
  - intros [= <-]. split; [simpl; lia | reflexivity].
  - destruct (is_space c) eqn:Hc.
    + destruct (match_spaces_line_end r) as [k'|].
      * intros [= <-]. destruct (IH k' eq_refl) as [Hle Hsp].
        split; [simpl; lia|]. cbn [take forallb]. now rewrite Hc.
      * destruct (at_line_end (c :: r)); [|discriminate].
        intros [= <-]. split; [simpl; lia | reflexivity].
    + destruct (at_line_end (c :: r)); [|discriminate].
      intros [= <-]. split; [simpl; lia | reflexivity].
Qed.

Lemma match_go_spec (s : str) (n : nat) :
  match_go s = Some n ->
  (3 <= n <= length s)%nat /\ is_go_separator (take n s).
Proof.
  unfold match_go. destruct s as [|nl [|g [|o r]]]; try discriminate.
  destruct (N.eqb_spec nl 10) as [->|]; [|discriminate]. cbn [andb].
  destruct ((g =? 103) || (g =? 71))%N eqn:Hg; [|discriminate].
  destruct ((o =? 111) || (o =? 79))%N eqn:Ho; [|discriminate].
  cbn [andb].
  destruct (match_spaces_line_end r) as [k|] eqn:Hk; [|discriminate].
  intros [= <-]. destruct (match_spaces_line_end_spec _ _ Hk) as [Hle Hsp].
  split; [simpl; lia|]. exists g, o, (take k r).
  split; [reflexivity|].
  apply orb_true_iff in Hg as [Hg|Hg]; apply N.eqb_eq in Hg;
    apply orb_true_iff in Ho as [Ho|Ho]; apply N.eqb_eq in Ho; auto.
Qed.

Lemma re_split_go_skip (k : nat) (piece s : str) :
  (k <= length s)%nat ->
  re_split_go k piece s = re_split_go 0 piece (drop k s).
Proof.
  revert k. induction s as [|c r IH]; intros k Hk.
  - destruct k; [reflexivity | simpl in Hk; lia].
  - destruct k as [|k]; [reflexivity|].
    cbn [re_split_go drop]. apply IH. simpl in Hk. lia.
Qed.

Lemma re_split_go_rejoin (n : nat) (s piece : str) :
  (length s <= n)%nat ->
  exists seps,
    length (re_split_go 0 piece s) = S (length seps) /\
    rejoin (re_split_go 0 piece s) seps = piece ++ s /\
    Forall is_go_separator seps.
Proof.
  revert s piece. induction n as [|n IH]; intros s piece Hn.
  - destruct s; [|simpl in Hn; lia]. exists [].
    cbn. rewrite app_nil_r. auto.
  - destruct s as [|c r].
    { exists []. cbn. rewrite app_nil_r. auto. }
    cbn [re_split_go].
    destruct (match_go (c :: r)) as [[|k]|] eqn:Hm.
    + apply match_go_spec in Hm as [Hm _]. lia.
    + apply match_go_spec in Hm as [[_ Hk] Hsep].
      cbn [length] in Hk, Hn.
      rewrite re_split_go_skip by lia.
      destruct (IH (drop k r) []) as (seps & Hlen & Hjoin & Hseps).
      { rewrite length_drop. lia. }
      exists ((c :: take k r) :: seps). split; [|split].
      * cbn [length]. now rewrite Hlen.
      * destruct (re_split_go 0 [] (drop k r)) as [|p ps] eqn:Hps;
          [discriminate|].
        cbn [rejoin]. cbn [rejoin] in Hjoin.
        change (rejoin (p :: ps) seps) with
          (match seps with
           | sep :: seps' => p ++ sep ++ rejoin ps seps'
           | [] => p
           end) in Hjoin.
        rewrite Hjoin. cbn [app]. now rewrite take_drop.
      * constructor; [exact Hsep | exact Hseps].
    + destruct (IH r (piece ++ [c])) as (seps & Hlen & Hjoin & Hseps).
      { simpl in Hn. lia. }
      exists seps. rewrite <- app_assoc in Hjoin. auto.
Qed.

Lemma re_split_go_no_match (s piece : str) :
  Forall (fun c => c <> 10%N) s \/
  Forall (fun c => c <> 103%N /\ c <> 71%N) s ->
  re_split_go 0 piece s = [piece ++ s].
Proof.
  intros Hs. revert piece. induction s as [|c r IH]; intros piece.
  - cbn. now rewrite app_nil_r.
  - cbn [re_split_go].
    assert (Hm : match_go (c :: r) = None).
    { unfold match_go. destruct r as [|g [|o r']]; try reflexivity.
      destruct Hs as [Hs|Hs].
      - apply Forall_cons in Hs as [Hc _].
        now apply N.eqb_neq in Hc as ->.
      - apply Forall_cons in Hs as [_ Hs].
        apply Forall_cons in Hs as [[H1 H2] _].
        apply N.eqb_neq in H1 as ->. apply N.eqb_neq in H2 as ->.
        now rewrite andb_false_r. }
    rewrite Hm, IH, <- app_assoc; [reflexivity|].
    destruct Hs as [Hs|Hs]; [left | right];
      now apply Forall_cons in Hs as [_ Hs].
Qed.

End SplitFacts.

(** X12. Splitting a script loses nothing but the separators: the
    pieces, with a separator between each two, make up the text again,
    and every separator is a line feed, [go] in either case and white
    space. *)
Theorem re_split_go_loses_only_separators (sql_content : str) :
  exists seps,
    length (re_split_go 0 [] sql_content) = S (length seps) /\
    rejoin (re_split_go 0 [] sql_content) seps = sql_content /\
    Forall is_go_separator seps.
Proof.
  exact (re_split_go_rejoin (length sql_content) sql_content []
           (Nat.le_refl _)).
Qed.

(** X13. A script of one line, or one without the letter g in either
    case, is never split: what reaches the cursor is the trimmed text as one batch, or
    nothing when the text is blank.  So a [GO] on the first line is
    passed on as part of a batch. *)
Theorem script_without_separator_is_one_batch (sql_content : str) :
  Forall (fun c => c <> 10%N) sql_content \/
  Forall (fun c => c <> 103%N /\ c <> 71%N) sql_content ->
  re_split_go 0 [] sql_content = [sql_content] /\
  script_batches sql_content =
    if bool_decide (strip sql_content = []) then []
    else [strip sql_content].
Proof.
  intros Hs. pose proof (re_split_go_no_match sql_content [] Hs) as Hsplit.
  cbn [app] in Hsplit. split; [exact Hsplit|].
  unfold script_batches. rewrite Hsplit. cbn [fmap list_fmap List.filter].
  cbn [truthy]. now destruct (bool_decide (strip sql_content = [])).
Qed.

Lemma script_without_separator_is_one_batch_witness :
  (Forall (fun c => c <> 10%N) (lit "GO ") \/
   Forall (fun c => c <> 103%N /\ c <> 71%N) (lit "GO ")) /\
  script_batches (lit "GO ") =
    if bool_decide (strip (lit "GO ") = []) then [] else [strip (lit "GO ")].
Proof.
  assert (H : Forall (fun c => c <> 10%N) (lit "GO ") \/
              Forall (fun c => c <> 103%N /\ c <> 71%N) (lit "GO ")).
  { left. repeat constructor; discriminate. }
  split; [exact H|].
  exact (proj2 (script_without_separator_is_one_batch (lit "GO ") H)).
Defined.

Section ScriptFacts.

Context `{ScriptCursor C}.

Lemma run_batches_execute_all (c : C) (pieces : list str) :
  run_batches c pieces =
  execute_all c
    (List.filter (fun batch => truthy (VStr batch)) (strip <$> pieces)).
Proof.
  revert c. induction pieces as [|p pieces IH]; intros c; [reflexivity|].
  cbn [run_batches fmap list_fmap List.filter].
  change (list_fmap str str strip pieces) with (strip <$> pieces).
  destruct (truthy (VStr (strip p))); [|apply IH].
  cbn [execute_all].
  destruct (execute_batch c (strip p)) as [c' [e|]]; [reflexivity | apply IH].
Qed.

Lemma execute_all_app (c : C) (pre post : list str) :
  execute_all c (pre ++ post) =
  match execute_all c pre with
  | (c', None) => execute_all c' post
  | (c', Some e) => (c', Some e)
  end.
Proof.
  revert c. induction pre as [|b pre IH]; intros c; cbn [app execute_all].
  - reflexivity.
  - destruct (execute_batch c b) as [c' [e|]]; [reflexivity | apply IH].
Qed.

End ScriptFacts.

(** [execute_sql_file] in terms of the batches that reach the cursor. *)
Lemma script_runs_trimmed_batches_aux `{ScriptCursor C} (c : C)
    (filepath sql_content : str) :
  execute_sql_file c filepath (Contents sql_content) =
    match execute_all c (script_batches sql_content) with
    | (c', Some e) => (c', Failed e)
    | (c', None) =>
        match commit c' with
        | (c'', Some e) => (c'', Failed e)
        | (c'', None) => (c'', Finished tt)
        end
    end /\
  Forall (fun batch => batch <> [] /\ strip batch = batch)
    (script_batches sql_content).
Proof.
  split.
  - unfold execute_sql_file, script_batches.
    now rewrite run_batches_execute_all.
  - unfold script_batches. apply Forall_forall. intros batch Hin.
    apply list_elem_of_In, filter_In in Hin as [Hin Htrue].
    apply list_elem_of_In, list_elem_of_fmap in Hin as (p & -> & _).
    split; [|apply strip_idem].
    cbn [truthy] in Htrue. intros Hnil. rewrite Hnil in Htrue.
    discriminate.
Qed.

(** X14. What a script does to the cursor: its non-empty trimmed
    batches are executed in order up to the first failure and, when all
    succeed, the cursor commits.  No batch that is executed is empty or
    starts or ends with white space. *)
Theorem script_runs_trimmed_batches `{ScriptCursor C} (c : C)
    (filepath sql_content : str) :
  execute_sql_file c filepath (Contents sql_content) =
    match execute_all c (script_batches sql_content) with
    | (c', Some e) => (c', Failed e)
    | (c', None) =>
        match commit c' with
        | (c'', Some e) => (c'', Failed e)
        | (c'', None) => (c'', Finished tt)
        end
    end /\
  Forall (fun batch => batch <> [] /\ strip batch = batch)
    (script_batches sql_content).
Proof. exact (script_runs_trimmed_batches_aux c filepath sql_content). Qed.

(** X15. A batch that fails ends the script: the batches after it are
    not executed, nothing is committed, and the failure is raised
    again. *)
Theorem failing_batch_stops_script `{ScriptCursor C} (c c1 c2 : C)
    (filepath sql_content : str) (pre post : list str) (batch : str)
    (e : exn) :
  script_batches sql_content = pre ++ batch :: post ->
  execute_all c pre = (c1, None) ->
  execute_batch c1 batch = (c2, Some e) ->
  execute_sql_file c filepath (Contents sql_content) = (c2, Failed e).
Proof.
  intros Hsplit Hpre Hfail.
  rewrite (proj1 (script_runs_trimmed_batches_aux c filepath sql_content)).
  rewrite Hsplit, execute_all_app, Hpre. cbn [execute_all].
  now rewrite Hfail.
Qed.

Example sample_script_batches :
  script_batches sample_script =
    [lit "SELECT 1"; lit "RAISERROR"; lit "SELECT 2"].
Proof. vm_compute. reflexivity. Qed.

Lemma failing_batch_stops_script_witness :
  script_batches sample_script =
    [lit "SELECT 1"] ++ lit "RAISERROR" :: [lit "SELECT 2"] /\
  execute_all (Session [] [] 0) [lit "SELECT 1"] =
    (Session [] [lit "SELECT 1"] 0, None) /\
  execute_batch (Session [] [lit "SELECT 1"] 0) (lit "RAISERROR") =
    (Session [] [lit "SELECT 1"] 0,
     Some (Exn DatabaseError (lit "error raised"))) /\
  execute_sql_file (Session [] [] 0) (lit "OlxData.sql")
    (Contents sample_script) =
    (Session [] [lit "SELECT 1"] 0,
     Failed (Exn DatabaseError (lit "error raised"))).
Proof.
  assert (H1 : script_batches sample_script =
               [lit "SELECT 1"] ++ lit "RAISERROR" :: [lit "SELECT 2"])
    by (vm_compute; reflexivity).
  assert (H2 : execute_all (Session [] [] 0) [lit "SELECT 1"] =
               (Session [] [lit "SELECT 1"] 0, None))
    by (vm_compute; reflexivity).
  assert (H3 : execute_batch (Session [] [lit "SELECT 1"] 0)
                 (lit "RAISERROR") =
               (Session [] [lit "SELECT 1"] 0,
                Some (Exn DatabaseError (lit "error raised"))))
    by (vm_compute; reflexivity).
  split; [exact H1|]. split; [exact H2|]. split; [exact H3|].
  exact (failing_batch_stops_script _ _ _ (lit "OlxData.sql") _ _ _ _ _
           H1 H2 H3).
Defined.

(** ** Whole numbers *)

Section ExactIntegerFacts.

Lemma digits2_pos_size (p : positive) : digits2_pos p = Pos.size p.
Proof. induction p; simpl; congruence. Qed.

Lemma size_le_53 (m : positive) :
  Z.pos m < 2 ^ 53 -> Z.pos (digits2_pos m) <= 53.
Proof.
  intros Hm. rewrite digits2_pos_size.
  pose proof (Pos.size_le m) as Hle.
  apply Pos2Z.pos_le_pos in Hle. rewrite Pos2Z.inj_pow in Hle.
  rewrite (Pos2Z.inj_xO m) in Hle.
  assert (Hlt : 2 ^ Z.pos (Pos.size m) < 2 ^ 54).
  { change (2 ^ 54) with (2 * 2 ^ 53). lia. }
  apply Z.pow_lt_mono_r_iff in Hlt; lia.
Qed.

Lemma iter_xO_value (m p : positive) :
  Z.pos (Pos.iter xO m p) = Z.pos m * 2 ^ Z.pos p.
Proof.
  apply (Pos.iter_ind _ xO m
           (fun p a => Z.pos a = Z.pos m * 2 ^ Z.pos p)).
  - rewrite Pos2Z.inj_xO. change (2 ^ 1) with 2. lia.
  - intros q a Ha. rewrite Pos2Z.inj_xO, Ha, Pos2Z.inj_succ.
    rewrite Z.pow_succ_r by lia. lia.
Qed.

Lemma iter_xO_digits (m p : positive) :
  digits2_pos (Pos.iter xO m p) = (digits2_pos m + p)%positive.
Proof.
  apply (Pos.iter_ind _ xO m
           (fun p a => digits2_pos a = (digits2_pos m + p)%positive)).
  - simpl. now rewrite Pos.add_1_r.
  - intros q a Ha. simpl. now rewrite Ha, Pos.add_succ_r.
Qed.

(** A mantissa of 53 bits with an exponent in range is not rounded. *)
Lemma binary_round_aux_exact (mz : positive) (ez : Z) :
  Z.pos (digits2_pos mz) = 53 -> -1074 <= ez <= 971 ->
  binary_round_aux prec emax false (Z.pos mz) ez loc_Exact =
    S754_finite false mz ez.
Proof.
  intros Hd He.
  assert (Hshift : fexp prec emax (Zdigits2 (Z.pos mz) + ez) - ez = 0).
  { unfold fexp, emin, prec, emax. cbn [Zdigits2]. rewrite Hd. lia. }
  unfold binary_round_aux, shr_fexp. rewrite Hshift.
  cbn [shr shr_record_of_loc loc_of_shr_record shr_m round_nearest_even].
  rewrite Hshift. cbn [shr shr_record_of_loc shr_m].
  unfold prec, emax. destruct (Z.leb_spec ez (1024 - 53)); [reflexivity|lia].
Qed.

(** A whole number below 2^53 is a float, and [int] gives it back. *)
Lemma binary_round_exact (m : positive) :
  Z.pos m < 2 ^ 53 ->
  py_int (binary_round prec emax false m 0) = Ok (Z.pos m).
Proof.
  intros Hm. pose proof (size_le_53 m Hm) as Hd.
  unfold binary_round.
  assert (Hfexp : fexp prec emax (Z.pos (digits2_pos m) + 0) =
                  Z.pos (digits2_pos m) - 53).
  { unfold fexp, emin, prec, emax. lia. }
  rewrite Hfexp. unfold shl_align.
  destruct (Z.pos (digits2_pos m) - 53 - 0) as [|q|q] eqn:Hq; [|lia|].
  - rewrite binary_round_aux_exact by lia. cbn [py_int].
    change (0 <=? 0) with true. cbv iota. f_equal. lia.
  - assert (Hq' : Z.pos q = 53 - Z.pos (digits2_pos m)) by lia.
    rewrite binary_round_aux_exact.
    + cbn [py_int].
      destruct (Z.leb_spec 0 (Z.pos (digits2_pos m) - 53)); [lia|].
      f_equal. rewrite iter_xO_value.
      replace (- (Z.pos (digits2_pos m) - 53)) with (Z.pos q) by lia.
      apply Z.div_mul. apply Z.pow_nonzero; lia.
    + rewrite iter_xO_digits, Pos2Z.inj_add. lia.
    + lia.
Qed.

Lemma round_decimal_exact (n : N) :
  (Z.of_N n < 2 ^ 53) ->
  py_int (round_decimal false n 0) = Ok (Z.of_N n).
Proof.
  intros Hn. destruct n as [|m]; [reflexivity|].
  unfold round_decimal. change (0 <=? 0) with true. cbv iota.
  change (10 ^ 0) with 1. rewrite Z.mul_1_r.
  cbn [binary_normalize]. now apply binary_round_exact.
Qed.

Lemma is_digit_cases (c : N) :
  is_digit c = true ->
  (c = 48 \/ c = 49 \/ c = 50 \/ c = 51 \/ c = 52 \/
   c = 53 \/ c = 54 \/ c = 55 \/ c = 56 \/ c = 57)%N.
Proof.
  unfold is_digit. intros [H1 H2]%andb_true_iff.
  apply N.leb_le in H1. apply N.leb_le in H2. lia.
Qed.

(** What the steps of the conversion do with a character that is a
    decimal digit. *)
Lemma is_digit_plain (c : N) :
  is_digit c = true ->
  is_space c = false /\ is_ascii_space c = false /\ to_ascii c = c /\
  (c =? 44)%N = false /\ (c =? 95)%N = false /\
  parse_sign [c] = (false, [c]).
Proof.
  intros Hc. apply is_digit_cases in Hc.
  repeat destruct Hc as [->|Hc]; try subst c; repeat split.
Qed.

Lemma digit_text_is_digit (ds : list N) :
  Forall (fun d => (d < 10)%N) ds ->
  Forall (fun c => is_digit c = true) (digit_text ds).
Proof.
  induction 1 as [|d ds Hd _ IH]; [constructor|].
  constructor; [|exact IH]. unfold is_digit.
  apply andb_true_iff. split; apply N.leb_le; lia.
Qed.

Lemma strip_plain (s : str) :
  Forall (fun c => is_space c = false) s -> strip s = s.
Proof.
  intros Hs.
  assert (Hl : forall t : str,
            Forall (fun c => is_space c = false) t -> lstrip t = t).
  { intros [|c t] Ht; [reflexivity|]. apply Forall_cons in Ht as [Hc _].
    simpl. now rewrite Hc. }
  unfold strip, rstrip. rewrite (Hl s Hs), Hl, rev_involutive;
    [reflexivity|].
  apply Forall_forall. intros c Hc. rewrite Forall_forall in Hs.
  apply Hs. apply list_elem_of_In. apply list_elem_of_In, in_rev in Hc.
  exact Hc.
Qed.

Lemma strip_ascii_plain (s : str) :
  Forall (fun c => is_ascii_space c = false) s -> strip_ascii s = s.
Proof.
  intros Hs.
  assert (Hl : forall t : str,
            Forall (fun c => is_ascii_space c = false) t ->
            lstrip_ascii t = t).
  { intros [|c t] Ht; [reflexivity|]. apply Forall_cons in Ht as [Hc _].
    simpl. now rewrite Hc. }
  unfold strip_ascii. rewrite (Hl s Hs), Hl, rev_involutive;
    [reflexivity|].
  apply Forall_forall. intros c Hc. rewrite Forall_forall in Hs.
  apply Hs. apply list_elem_of_In. apply list_elem_of_In, in_rev in Hc.
  exact Hc.
Qed.

Lemma remove_underscores_digits (s : str) (prev : N) :
  (prev =? 95)%N = false ->
  Forall (fun c => is_digit c = true) s ->
  remove_underscores prev s = Some s.
Proof.
  intros Hprev Hs. revert prev Hprev.
  induction Hs as [|c s Hc _ IH]; intros prev Hprev; simpl.
  - now rewrite Hprev.
  - destruct (is_digit_plain c Hc) as (_ & _ & _ & _ & H95 & _).
    rewrite H95, Hprev. cbn [andb]. now rewrite (IH c H95).
Qed.

Lemma span_digits_digit_text (ds : list N) :
  Forall (fun d => (d < 10)%N) ds ->
  span_digits (digit_text ds) = (ds, []).
Proof.
  induction 1 as [|d ds Hd Hds IH]; [reflexivity|].
  cbn [digit_text List.map span_digits]. fold (digit_text ds).
  assert (Hc : is_digit (48 + d) = true).
  { unfold is_digit. apply andb_true_iff. split; apply N.leb_le; lia. }
  rewrite Hc, IH. f_equal. f_equal. lia.
Qed.

(** [float] on a text of decimal digits. *)
Lemma py_float_digit_text (ds : list N) :
  ds <> [] -> Forall (fun d => (d < 10)%N) ds ->
  py_float (digit_text ds) =
    Ok (round_decimal false (digits_value ds) 0).
Proof.
  intros Hne Hds. pose proof (digit_text_is_digit ds Hds) as Hdig.
  unfold py_float.
  assert (Hascii : List.map to_ascii (digit_text ds) = digit_text ds).
  { rewrite <- (List.map_id (digit_text ds)) at 2.
    apply List.map_ext_in. intros c Hc. rewrite Forall_forall in Hdig.
    apply list_elem_of_In in Hc. now apply is_digit_plain, Hdig. }
  rewrite Hascii, strip_ascii_plain.
  2:{ eapply Forall_impl; [exact Hdig|]. intros c Hc.
      now apply is_digit_plain. }
  rewrite remove_underscores_digits by (reflexivity || exact Hdig).
  assert (Hsign : parse_sign (digit_text ds) = (false, digit_text ds)).
  { destruct ds as [|d ds]; [reflexivity|].
    apply Forall_cons in Hdig as [Hc _].
    cbn [digit_text List.map] in *.
    destruct (is_digit_cases _ Hc) as
      [E|[E|[E|[E|[E|[E|[E|[E|[E|E]]]]]]]]]; rewrite E; reflexivity. }
  rewrite Hsign. unfold parse_decimal.
  rewrite (span_digits_digit_text ds Hds). rewrite app_nil_r.
  destruct ds as [|d ds]; [now destruct Hne|]. reflexivity.
Qed.

End ExactIntegerFacts.

(** X16. A whole number below 2^53 written in decimal digits is
    converted exactly by the integer converter, and by the bounded
    small-integer converter when it is at most 255. *)
Theorem plain_integers_convert_exactly (ds : list N) :
  ds <> [] -> Forall (fun d => (d < 10)%N) ds ->
  Z.of_N (digits_value ds) < 2 ^ 53 ->
  _parse_int (VStr (digit_text ds)) = Ok (VInt (Z.of_N (digits_value ds))) /\
  (Z.of_N (digits_value ds) <= 255 ->
   _parse_tinyint (VStr (digit_text ds)) =
     Ok (VInt (Z.of_N (digits_value ds)))).
Proof.
  intros Hne Hds Hn. pose proof (digit_text_is_digit ds Hds) as Hdig.
  assert (Hstrip : strip (digit_text ds) = digit_text ds).
  { apply strip_plain. eapply Forall_impl; [exact Hdig|].
    intros c Hc. now apply is_digit_plain. }
  assert (Hcomma : replace_comma (digit_text ds) = digit_text ds).
  { unfold replace_comma. rewrite <- (List.map_id (digit_text ds)) at 2.
    apply List.map_ext_in. intros c Hc. rewrite Forall_forall in Hdig.
    apply list_elem_of_In in Hc.
    destruct (is_digit_plain c (Hdig c Hc)) as (_ & _ & _ & -> & _).
    reflexivity. }
  assert (Htext : digit_text ds <> []).
  { destruct ds; [now destruct Hne | discriminate]. }
  unfold _parse_int, _parse_tinyint. cbn [str_of truthy isinstance_str].
  rewrite bool_decide_eq_false_2 by exact Htext. cbn [negb orb]. cbv zeta.
  rewrite Hstrip, bool_decide_eq_false_2 by exact Htext. cbn [negb].
  rewrite Hcomma, (py_float_digit_text ds Hne Hds).
  cbn [mbind result_bind]. rewrite (round_decimal_exact _ Hn).
  cbn [mbind result_bind except_value_error]. split; [reflexivity|].
  intros Hle.
  destruct (Z.leb_spec 0 (Z.of_N (digits_value ds))); [|lia].
  destruct (Z.leb_spec (Z.of_N (digits_value ds)) 255); [|lia].
  reflexivity.
Qed.

Lemma plain_integers_convert_exactly_witness :
  [1; 7; 9; 0; 6; 5; 8]%N <> [] /\
  Forall (fun d => (d < 10)%N) [1; 7; 9; 0; 6; 5; 8]%N /\
  Z.of_N (digits_value [1; 7; 9; 0; 6; 5; 8]%N) < 2 ^ 53 /\
  _parse_int (VStr (digit_text [1; 7; 9; 0; 6; 5; 8]%N)) =
    Ok (VInt (Z.of_N (digits_value [1; 7; 9; 0; 6; 5; 8]%N))).
Proof.
  assert (H1 : [1; 7; 9; 0; 6; 5; 8]%N <> []) by discriminate.
  assert (H2 : Forall (fun d => (d < 10)%N) [1; 7; 9; 0; 6; 5; 8]%N)
    by (repeat constructor).
  assert (H3 : Z.of_N (digits_value [1; 7; 9; 0; 6; 5; 8]%N) < 2 ^ 53)
    by (vm_compute; reflexivity).
  split; [exact H1|]. split; [exact H2|]. split; [exact H3|].
  exact (proj1 (plain_integers_convert_exactly _ H1 H2 H3)).
Defined.

(** Above 2^53 the float in between drops digits. *)
Example large_integer_is_rounded :
  _parse_int (VStr (lit "9007199254740993")) = Ok (VInt 9007199254740992).
Proof. vm_compute. reflexivity. Qed.
